(** * OpenClaw Ollama bot: event relay, formatting pipeline and query responder

    A shallow embedding of [ollama-bot.py] and the properties of its
    specification.  Python values are an inductive type, Python strings are
    sequences of Unicode code points, Python floats are binary64 numbers
    (Rocq's primitive floats), exceptions are an explicit result type, and
    the calls to the outside world (HTTP, the generative backend, the chat
    channel, the logger) are threaded through a state-and-trace monad. *)

From Stdlib Require Import ZArith NArith List String Ascii Bool Lia Floats.
Import ListNotations.
Open Scope Z_scope.

(** ** Python strings *)

Module PyStr.

(** A Python [str] is a sequence of code points: [len] and slicing count
    code points, not bytes. *)
Definition str := list N.

(** String literals of the source are written as Rocq strings, which hold
    UTF-8 bytes; [u] decodes them into code points. *)
Fixpoint utf8_decode (bs : list N) : str :=
  match bs with
  | [] => []
  | b :: r =>
    if (b <? 128)%N then b :: utf8_decode r
    else if (b <? 224)%N then
      match r with
      | b1 :: r1 =>
        N.lor (N.shiftl (N.land b 31) 6) (N.land b1 63) :: utf8_decode r1
      | _ => [b]
      end
    else if (b <? 240)%N then
      match r with
      | b1 :: b2 :: r2 =>
        N.lor (N.shiftl (N.land b 15) 12)
          (N.lor (N.shiftl (N.land b1 63) 6) (N.land b2 63)) :: utf8_decode r2
      | _ => [b]
      end
    else
      match r with
      | b1 :: b2 :: b3 :: r3 =>
        N.lor (N.shiftl (N.land b 7) 18)
          (N.lor (N.shiftl (N.land b1 63) 12)
             (N.lor (N.shiftl (N.land b2 63) 6) (N.land b3 63)))
        :: utf8_decode r3
      | _ => [b]
      end
  end.

Definition u (s : string) : str :=
  utf8_decode (map N_of_ascii (list_ascii_of_string s)).
Arguments u : simpl never.

Definition str_eqb (a b : str) : bool :=
  if list_eq_dec N.eq_dec a b then true else false.

(** [s[:n]] *)
Definition slice_to (n : nat) (s : str) : str := firstn n s.

(** [sep.join(parts)] *)
Fixpoint join (sep : str) (parts : list str) : str :=
  match parts with
  | [] => []
  | [p] => p
  | p :: rest => p ++ sep ++ join sep rest
  end.

(** [c * n] for a one-character string. *)
Definition replicate (n : nat) (c : N) : str := repeat c n.

Fixpoint prefixb (p s : str) : bool :=
  match p, s with
  | [], _ => true
  | _ :: _, [] => false
  | a :: p', b :: s' => (a =? b)%N && prefixb p' s'
  end.

(** [p in s] for two strings: substring search. *)
Fixpoint substrb (p s : str) : bool :=
  prefixb p s || match s with [] => false | _ :: s' => substrb p s' end.

(** [str.isspace] on one code point: the characters [str.strip()] removes. *)
Definition is_space (c : N) : bool :=
  ((9 <=? c) && (c <=? 13) || (28 <=? c) && (c <=? 32)
   || (c =? 133) || (c =? 160) || (c =? 5760)
   || (8192 <=? c) && (c <=? 8202)
   || (c =? 8232) || (c =? 8233) || (c =? 8239) || (c =? 8287)
   || (c =? 12288))%N.

Fixpoint lstrip (s : str) : str :=
  match s with
  | c :: r => if is_space c then lstrip r else s
  | [] => []
  end.

(** [s.strip()] *)
Definition strip (s : str) : str := rev (lstrip (rev (lstrip s))).

(** Decimal digits of a non-negative number, most significant first. *)
Fixpoint digits_of_pos_fuel (fuel : nat) (n : Z) (acc : str) : str :=
  match fuel with
  | O => acc
  | S f =>
    let acc' := Z.to_N (48 + n mod 10) :: acc in
    if n <? 10 then acc' else digits_of_pos_fuel f (n / 10) acc'
  end.

Definition digits_of (n : Z) : str :=
  digits_of_pos_fuel (S (Z.to_nat (Z.log2 n))) n [].

(** [str(n)] for an [int]. *)
Definition str_of_int (n : Z) : str :=
  if n <? 0 then u "-" ++ digits_of (- n) else digits_of n.

(** Left-pad with zeros to [w] characters. *)
Definition zero_pad (w : nat) (s : str) : str :=
  replicate (w - List.length s) 48%N ++ s.

End PyStr.
Import PyStr.

(** ** Python floats: [repr] and fixed-point formatting *)

Module PyFloat.

(** [c1 * 10^p] against [c2 * 2^q], compared exactly. *)
Definition cmp_scaled (c1 p c2 q : Z) : comparison :=
  Z.compare (c1 * 10 ^ Z.max p 0 * 2 ^ Z.max (- q) 0)
            (c2 * 2 ^ Z.max q 0 * 10 ^ Z.max (- p) 0).

(** Does the decimal [d * 10^p] round (to nearest, ties to even) to the
    double [m * 2^e]?  The rounding interval ends half-way to the two
    neighbours; the lower neighbour is nearer when [m] is a power of two. *)
Definition rounds_to (m e d p : Z) : bool :=
  let lo := if (m =? 2 ^ 52) && (-1074 <? e) then 4 * m - 1 else 4 * m - 2 in
  let hi := 4 * m + 2 in
  let even := Z.even m in
  (match cmp_scaled d p lo (e - 2) with
   | Gt => true | Eq => even | Lt => false end)
  && (match cmp_scaled d p hi (e - 2) with
      | Lt => true | Eq => even | Gt => false end).

(** [|d1 * 10^p - x|] against [|d2 * 10^p - x|] for [d1 <= x <= d2]:
    is the lower candidate at least as near? *)
Definition lower_nearer (m e d1 d2 p : Z) : bool :=
  match cmp_scaled (d1 + d2) p (2 * m) e with
  | Gt => true
  | Eq => Z.even d1
  | Lt => false
  end.

(** The position of the decimal point: the [k] with [10^(k-1) <= m*2^e < 10^k]. *)
Fixpoint decpt_search (fuel : nat) (m e k : Z) : Z :=
  match fuel with
  | O => k
  | S f =>
    match cmp_scaled 1 k m e with
    | Gt =>
      match cmp_scaled 1 (k - 1) m e with
      | Gt => decpt_search f m e (k - 1)
      | _ => k
      end
    | _ => decpt_search f m e (k + 1)
    end
  end.

Definition decpt_of (m e : Z) : Z := decpt_search 700 m e 0.

(** The shortest decimal [d * 10^p] that rounds to [m * 2^e], the nearest one
    among the shortest: tried with 1, 2, ... 17 significant digits. *)
Fixpoint shortest_search (fuel : nat) (m e k n : Z) : Z * Z :=
  let p := k - n in
  let num := m * 2 ^ Z.max e 0 * 10 ^ Z.max (- p) 0 in
  let den := 2 ^ Z.max (- e) 0 * 10 ^ Z.max p 0 in
  let d1 := num / den in
  let d2 := if num mod den =? 0 then d1 else d1 + 1 in
  match fuel with
  | O => (d1, p)
  | S f =>
    match rounds_to m e d1 p, rounds_to m e d2 p with
    | true, true => if lower_nearer m e d1 d2 p then (d1, p) else (d2, p)
    | true, false => (d1, p)
    | false, true => (d2, p)
    | false, false => shortest_search f m e k (n + 1)
    end
  end.

Fixpoint strip_zeros (fuel : nat) (d p : Z) : Z * Z :=
  match fuel with
  | O => (d, p)
  | S f => if (d mod 10 =? 0) && (0 <? d) then strip_zeros f (d / 10) (p + 1)
           else (d, p)
  end.

Definition shortest_decimal (m e : Z) : Z * Z :=
  let '(d, p) := shortest_search 17 m e (decpt_of m e) 1 in
  strip_zeros 20 d p.

(** [repr] of a finite non-zero magnitude: positional notation when the
    decimal point falls within [-4 < decpt <= 16], else an exponent of at
    least two digits. *)
Definition repr_magnitude (m e : Z) : str :=
  let '(d, p) := shortest_decimal m e in
  let ds := digits_of d in
  let len := Z.of_nat (List.length ds) in
  let decpt := len + p in
  if (decpt <=? -4) || (16 <? decpt) then
    let x := decpt - 1 in
    firstn 1 ds
    ++ (if 1 <? len then u "." ++ skipn 1 ds else [])
    ++ u "e" ++ (if x <? 0 then u "-" else u "+")
    ++ zero_pad 2 (digits_of (Z.abs x))
  else if decpt <=? 0 then
    u "0." ++ replicate (Z.to_nat (- decpt)) 48%N ++ ds
  else if len <=? decpt then
    ds ++ replicate (Z.to_nat (decpt - len)) 48%N ++ u ".0"
  else
    firstn (Z.to_nat decpt) ds ++ u "." ++ skipn (Z.to_nat decpt) ds.

(** [repr(x)], which is also [str(x)] and [format(x, '')]. *)
Definition float_repr (x : float) : str :=
  match Prim2SF x with
  | S754_nan => u "nan"
  | S754_infinity s => if s then u "-inf" else u "inf"
  | S754_zero s => if s then u "-0.0" else u "0.0"
  | S754_finite s m e =>
    (if s then u "-" else []) ++ repr_magnitude (Zpos m) e
  end.

(** [|x| * 10^prec] rounded to the nearest integer, ties to even. *)
Definition round_scaled (m e : Z) (prec : nat) : Z :=
  let num := m * 2 ^ Z.max e 0 * 10 ^ Z.of_nat prec in
  let den := 2 ^ Z.max (- e) 0 in
  let q := num / den in
  let r := num mod den in
  match Z.compare (2 * r) den with
  | Lt => q
  | Gt => q + 1
  | Eq => if Z.even q then q else q + 1
  end.

Definition fixed_digits (r : Z) (prec : nat) : str :=
  digits_of (r / 10 ^ Z.of_nat prec)
  ++ match prec with
     | O => []
     | _ => u "." ++ zero_pad prec (digits_of (r mod 10 ^ Z.of_nat prec))
     end.

Definition sign_str (plus neg : bool) : str :=
  if neg then u "-" else if plus then u "+" else [].

(** [format(x, '.<prec>f')], and [format(x, '+.<prec>f')] when [plus]. *)
Definition float_format (plus : bool) (prec : nat) (x : float) : str :=
  match Prim2SF x with
  | S754_nan => sign_str plus false ++ u "nan"
  | S754_infinity s => sign_str plus s ++ u "inf"
  | S754_zero s => sign_str plus s ++ fixed_digits 0 prec
  | S754_finite s m e =>
    sign_str plus s ++ fixed_digits (round_scaled (Zpos m) e prec) prec
  end.

(** [float(n)] for an [int]: the nearest double, [None] for the
    [OverflowError] of an [int] too large. *)
Definition float_of_int (n : Z) : option float :=
  match binary_normalize 53 1024 n 0 false with
  | S754_infinity _ => None
  | S754_nan => None
  | sf => Some (SF2Prim sf)
  end.

(** [x == 0.0] *)
Definition float_is_zero (x : float) : bool := PrimFloat.eqb x 0%float.

End PyFloat.
Import PyFloat.

(** ** Python values and exceptions *)

(** The values the program handles: what [resp.json()] and [json.loads]
    produce.  A [dict] is an association list in insertion order (the order
    [json.dumps] prints), looked up by its first matching key. *)
#[local] Set Warnings "-register-all".

Inductive pyval : Type :=
| PNone
| PBool (b : bool)
| PInt (n : Z)
| PFloat (x : float)
| PStr (s : str)
| PList (l : list pyval)
| PDict (d : list (str * pyval)).

Definition dict := list (str * pyval).

(** The exceptions the program can meet.  [ExternalError] stands for whatever
    a call to the outside world raises (transport failure, timeout, a refused
    message, a missing module). *)
Inductive exn : Type :=
| AttributeError
| TypeError
| ValueError
| KeyError
| OverflowError
| ExternalError.

Inductive result (A : Type) : Type :=
| Ok (a : A)
| Raise (e : exn).
Arguments Ok {A} a.
Arguments Raise {A} e.

Definition rbind {A B} (r : result A) (k : A -> result B) : result B :=
  match r with
  | Ok a => k a
  | Raise e => Raise e
  end.

Declare Scope result_scope.
Delimit Scope result_scope with result.
Notation "x <- r ;; k" := (rbind r (fun x => k))
  (at level 61, r at next level, right associativity) : result_scope.

(** What the interpreter and its libraries contribute beyond the functions
    modelled here: the JSON decoder ([None] when [json.loads] raises), [repr]
    of a string, and [float] of a string ([None] for its [ValueError]). *)
Class PyRuntime : Type := {
  json_loads : str -> option pyval;
  str_repr : str -> str;
  float_of_str : str -> option float
}.

Module Py.

(** [bool(v)] *)
Definition truthy (v : pyval) : bool :=
  match v with
  | PNone => false
  | PBool b => b
  | PInt n => negb (n =? 0)
  | PFloat x => negb (float_is_zero x)
  | PStr s => match s with [] => false | _ => true end
  | PList l => match l with [] => false | _ => true end
  | PDict d => match d with [] => false | _ => true end
  end.

Fixpoint dict_get (d : dict) (k : str) : option pyval :=
  match d with
  | [] => None
  | (k', v) :: rest => if str_eqb k' k then Some v else dict_get rest k
  end.

(** [d[k] = v] on a dict: replaces the value of an existing key in place,
    appends a new key. *)
Fixpoint dict_set (d : dict) (k : str) (v : pyval) : dict :=
  match d with
  | [] => [(k, v)]
  | (k', v') :: rest =>
    if str_eqb k' k then (k', v) :: rest else (k', v') :: dict_set rest k v
  end.

(** [d.update(other)] *)
Definition dict_update (d other : dict) : dict :=
  fold_left (fun acc kv => dict_set acc (fst kv) (snd kv)) other d.

(** [v.get(k, default)]: only a dict has the method. *)
Definition get (v : pyval) (k : str) (default : pyval) : result pyval :=
  match v with
  | PDict d =>
    Ok (match dict_get d k with Some x => x | None => default end)
  | _ => Raise AttributeError
  end.

(** [v[k]] with a string key. *)
Definition index (v : pyval) (k : str) : result pyval :=
  match v with
  | PDict d =>
    match dict_get d k with Some x => Ok x | None => Raise KeyError end
  | _ => Raise TypeError
  end.

(** [k in v] with a string [k]: key of a dict, element of a list,
    substring of a string. *)
Definition contains (k : str) (v : pyval) : result bool :=
  match v with
  | PDict d => Ok (match dict_get d k with Some _ => true | None => false end)
  | PList l =>
    Ok (existsb (fun x => match x with PStr s => str_eqb k s | _ => false end) l)
  | PStr s => Ok (substrb k s)
  | _ => Raise TypeError
  end.

(** [len(v)] *)
Definition len (v : pyval) : result Z :=
  match v with
  | PStr s => Ok (Z.of_nat (List.length s))
  | PList l => Ok (Z.of_nat (List.length l))
  | PDict d => Ok (Z.of_nat (List.length d))
  | _ => Raise TypeError
  end.

(** The items [for x in v] visits. *)
Definition iter (v : pyval) : result (list pyval) :=
  match v with
  | PList l => Ok l
  | PDict d => Ok (map (fun kv => PStr (fst kv)) d)
  | PStr s => Ok (map (fun c => PStr [c]) s)
  | _ => Raise TypeError
  end.

(** [v[:n]]: a dict takes no slice ([TypeError] up to Python 3.11). *)
Definition slice (n : nat) (v : pyval) : result pyval :=
  match v with
  | PList l => Ok (PList (firstn n l))
  | PStr s => Ok (PStr (firstn n s))
  | _ => Raise TypeError
  end.

Section WithRuntime.
Context {rt : PyRuntime}.

(** [repr(v)], and [str(v)] when [top] (they differ on a string only, and
    the items of a container are always shown by [repr]). *)
Fixpoint show (top : bool) (v : pyval) : str :=
  match v with
  | PNone => u "None"
  | PBool b => if b then u "True" else u "False"
  | PInt n => str_of_int n
  | PFloat x => float_repr x
  | PStr s => if top then s else str_repr s
  | PList l => u "[" ++ join (u ", ") (map (show false) l) ++ u "]"
  | PDict d =>
    u "{"
    ++ join (u ", ")
         (map (fun kv => let '(k, x) := kv in
                         str_repr k ++ u ": " ++ show false x) d)
    ++ u "}"
  end.

(** [str(v)], which is also [format(v, '')], the [{v}] of an f-string. *)
Definition to_str (v : pyval) : str := show true v.

(** [float(v)] *)
Definition to_float (v : pyval) : result float :=
  match v with
  | PFloat x => Ok x
  | PInt n =>
    match float_of_int n with Some x => Ok x | None => Raise OverflowError end
  | PBool b => Ok (if b then 1%float else 0%float)
  | PStr s =>
    match float_of_str s with Some x => Ok x | None => Raise ValueError end
  | _ => Raise TypeError
  end.

(** [format(v, '.<prec>f')], the [{v:.2f}] of an f-string: numbers only;
    a string refuses the format code, other values refuse any format. *)
Definition format_fixed (plus : bool) (prec : nat) (v : pyval) : result str :=
  match v with
  | PFloat x => Ok (float_format plus prec x)
  | PInt n =>
    match float_of_int n with
    | Some x => Ok (float_format plus prec x)
    | None => Raise OverflowError
    end
  | PBool b => Ok (float_format plus prec (if b then 1%float else 0%float))
  | PStr _ => Raise ValueError
  | _ => Raise TypeError
  end.

End WithRuntime.

(** *** [json.dumps] *)

Definition hex_digit (n : N) : N := (if n <? 10 then 48 + n else 87 + n)%N.

Definition hex4 (c : N) : str :=
  map (fun k => hex_digit (N.shiftr c k mod 16)%N) [12; 8; 4; 0]%N.

Definition backslash : N := 92%N.
Definition dquote : N := 34%N.

(** One character of a JSON string with [ensure_ascii]: everything outside
    [' '..'~'] is escaped, above the basic plane as a surrogate pair. *)
Definition json_escape (c : N) : str :=
  (if c =? dquote then [backslash; dquote]
   else if c =? backslash then [backslash; backslash]
   else if c =? 10 then backslash :: u "n"
   else if c =? 13 then backslash :: u "r"
   else if c =? 9 then backslash :: u "t"
   else if c =? 12 then backslash :: u "f"
   else if c =? 8 then backslash :: u "b"
   else if (32 <=? c) && (c <=? 126) then [c]
   else if c <? 65536 then backslash :: u "u" ++ hex4 c
   else
     let v := c - 65536 in
     backslash :: u "u" ++ hex4 (N.lor 55296 (N.shiftr v 10))
     ++ backslash :: u "u" ++ hex4 (N.lor 56320 (N.land v 1023)))%N.

Definition json_string (s : str) : str :=
  dquote :: flat_map json_escape s ++ [dquote].

Definition json_float (x : float) : str :=
  match Prim2SF x with
  | S754_nan => u "NaN"
  | S754_infinity s => if s then u "-Infinity" else u "Infinity"
  | _ => float_repr x
  end.

(** Line break and indentation at a nesting level, when pretty-printing. *)
Definition json_newline (indent : option nat) (level : nat) : str :=
  match indent with
  | None => []
  | Some k => 10%N :: replicate (k * level) 32%N
  end.

Definition json_item_sep (indent : option nat) (level : nat) : str :=
  match indent with
  | None => u ", "
  | Some _ => u "," ++ json_newline indent level
  end.

(** [json.dumps(v, indent=indent, default=str)] at a nesting level.  Every
    value here is serializable, so [default] is never called. *)
Fixpoint json_dumps_at (indent : option nat) (level : nat) (v : pyval) : str :=
  match v with
  | PNone => u "null"
  | PBool b => if b then u "true" else u "false"
  | PInt n => str_of_int n
  | PFloat x => json_float x
  | PStr s => json_string s
  | PList [] => u "[]"
  | PList l =>
    u "[" ++ json_newline indent (S level)
    ++ join (json_item_sep indent (S level))
         (map (json_dumps_at indent (S level)) l)
    ++ json_newline indent level ++ u "]"
  | PDict [] => u "{}"
  | PDict d =>
    u "{" ++ json_newline indent (S level)
    ++ join (json_item_sep indent (S level))
         (map (fun kv => let '(k, x) := kv in
                         json_string k ++ u ": "
                         ++ json_dumps_at indent (S level) x) d)
    ++ json_newline indent level ++ u "}"
  end.

Definition json_dumps (v : pyval) : str := json_dumps_at None 0 v.
Definition json_dumps_indent (k : nat) (v : pyval) : str :=
  json_dumps_at (Some k) 0 v.

End Py.

(** ** The outside world and the effects of the bot *)

(** What [requests.post] hands back: the status, the body text, and what
    [resp.json()] makes of the body (it raises on a body that is no JSON). *)
Record response : Type := {
  status_code : Z;
  text : str;
  json : result pyval
}.

(** The external services, as transitions of an abstract world: the HTTP
    endpoint of the trading engine, the generative backend, and the report
    channel.  Each call may fail by raising. *)
Class Services (World : Type) : Type := {
  requests_post : dict -> World -> result response * World;
  ol_chat : str -> Z -> World -> result pyval * World;
  channel_send : str -> World -> result unit * World
}.

Inductive level : Type := Info | Error.

(** What the bot does to the outside world, in order.  A delivery is recorded
    with the event whose message it carries and with its outcome. *)
Inductive effect : Type :=
| EPost (body : dict)
| EChat (prompt : str) (num_predict : Z)
| ESend (event : pyval) (message : str) (delivered : bool)
| ELog (lvl : level) (message : str) (cause : option exn).

Module Bot.
Section Monad.
Context {World : Type}.

(** A computation of the bot: from the world it starts in, a value or an
    exception, the world it leaves, and the effects it had on the way. *)
Definition M (A : Type) : Type := World -> result A * World * list effect.

Definition ret {A} (a : A) : M A := fun w => (Ok a, w, []).

Definition bind {A B} (m : M A) (k : A -> M B) : M B :=
  fun w =>
    match m w with
    | (Ok a, w1, t1) => let '(r, w2, t2) := k a w1 in (r, w2, t1 ++ t2)
    | (Raise e, w1, t1) => (Raise e, w1, t1)
    end.

(** A pure computation that may raise. *)
Definition lift {A} (r : result A) : M A := fun w => (r, w, []).

Definition emit (e : effect) : M unit := fun w => (Ok tt, w, [e]).

(** [try: m  except Exception as e: handler(e)] *)
Definition try {A} (m : M A) (handler : exn -> M A) : M A :=
  fun w =>
    match m w with
    | (Raise e, w1, t1) => let '(r, w2, t2) := handler e w1 in (r, w2, t1 ++ t2)
    | done => done
    end.

Definition value {A} (x : result A * World * list effect) : result A :=
  fst (fst x).
Definition final {A} (x : result A * World * list effect) : World :=
  snd (fst x).
Definition effects {A} (x : result A * World * list effect) : list effect :=
  snd x.

End Monad.
End Bot.

Declare Scope bot_scope.
Delimit Scope bot_scope with bot.
Notation "x <- m ;; k" := (Bot.bind m (fun x => k))
  (at level 61, m at next level, right associativity) : bot_scope.
Notation "m ;; k" := (Bot.bind m (fun _ => k))
  (at level 61, right associativity) : bot_scope.

(** ** The program *)

Section Program.
Context {rt : PyRuntime} {World : Type} {sv : Services World}.

Definition nl : str := [10%N].

Definition log_info (message : str) : Bot.M (World := World) unit :=
  Bot.emit (ELog Info message None).

(** [log.error(f"<message>{e}")] *)
Definition log_error (message : str) (cause : option exn)
  : Bot.M (World := World) unit :=
  Bot.emit (ELog Error message cause).

(** *** VPS API *)

Definition post (body : dict) : Bot.M response :=
  fun w => let '(r, w') := requests_post body w in (r, w', [EPost body]).

(** The JSON body of a request: the action, updated with the extra data
    when there are any. *)
Definition request_body (action : str) (extra_data : option dict) : dict :=
  let body := [(u "action", PStr action)] in
  match extra_data with
  | Some ((_ :: _) as extra) => Py.dict_update body extra
  | _ => body
  end.

(** [call_vps_api(action, extra_data=None)]: the parsed JSON, or [None] on
    error. *)
Definition call_vps_api (action : str) (extra_data : option dict)
  : Bot.M pyval :=
  let body := request_body action extra_data in
  Bot.try
    (resp <- post body ;;
     if status_code resp =? 200 then Bot.lift (json resp)
     else
       log_error (u "API " ++ action ++ u " returned "
                  ++ str_of_int (status_code resp) ++ u ": "
                  ++ slice_to 200 (text resp)) None ;;
       Bot.ret PNone)%bot
    (fun e =>
       log_error (u "API " ++ action ++ u " failed: ") (Some e) ;;
       Bot.ret PNone)%bot.

(** *** Ollama formatting *)

Definition chat (prompt : str) (max_tokens : Z) : Bot.M pyval :=
  fun w => let '(r, w') := ol_chat prompt max_tokens w in
           (r, w', [EChat prompt max_tokens]).

(** [call_ollama(prompt, max_tokens)]: the generated text, or [None]. *)
Definition call_ollama (prompt : str) (max_tokens : Z) : Bot.M (option str) :=
  Bot.try
    (resp <- chat prompt max_tokens ;;
     message <- Bot.lift (Py.index resp (u "message")) ;;
     content <- Bot.lift (Py.index message (u "content")) ;;
     match content with
     | PStr s => Bot.ret (Some (strip s))
     | _ => Bot.lift (Raise AttributeError)
     end)%bot
    (fun e => log_error (u "Ollama error: ") (Some e) ;; Bot.ret None)%bot.

(** The metadata [format_event_with_ollama] renders: a string is decoded
    when it can be, and kept as it is when it cannot. *)
Definition ollama_meta (meta : pyval) : pyval :=
  match meta with
  | PStr s => match json_loads s with Some v => v | None => meta end
  | _ => meta
  end.

(** The prompt of [format_event_with_ollama]. *)
Definition event_prompt (event : pyval) : result str :=
  (meta <- Py.get event (u "metadata") PNone ;;
   let meta := ollama_meta meta in
   et <- Py.get event (u "event_type") PNone ;;
   sym <- Py.get event (u "symbol") (PStr (u "N/A")) ;;
   created <- Py.get event (u "created_at") (PStr []) ;;
   Ok (u "Format this trading event as a short Discord message. "
       ++ u "Use emoji. Keep under 300 characters. Be concise." ++ nl ++ nl
       ++ u "Type: " ++ Py.to_str et ++ nl
       ++ u "Symbol: " ++ Py.to_str sym ++ nl
       ++ u "Data: " ++ slice_to 500 (Py.json_dumps meta) ++ nl
       ++ u "Time: " ++ Py.to_str created))%result.

(** The metadata [format_event_fallback] renders: a string is decoded when it
    can be and replaced by an empty dict when it cannot; any falsy value
    becomes an empty dict. *)
Definition fallback_meta (meta : pyval) : pyval :=
  let meta := match meta with
              | PStr s =>
                match json_loads s with Some v => v | None => PDict [] end
              | _ => meta
              end in
  if Py.truthy meta then meta else PDict [].

(** [f"{meta.get(key, default)}"] *)
Definition field (meta : pyval) (key : string) (default : pyval) : result str :=
  (v <- Py.get meta (u key) default ;; Ok (Py.to_str v))%result.

(** [f"{meta.get(key, default):.2f}"] *)
Definition field_2f (meta : pyval) (key : string) (default : pyval)
  : result str :=
  (v <- Py.get meta (u key) default ;; Py.format_fixed false 2 v)%result.

Definition q : pyval := PStr (u "?").

(** The [templates] table of [format_event_fallback]: each entry is the
    value its lambda computes from [sym] and [meta] when called. *)
Definition templates (sym meta : pyval) : list (str * result str) :=
  [ (u "BUY",
     (price <- field meta "price" q ;;
      conf <- field meta "confidence" q ;;
      reasoning <- Py.get meta (u "reasoning") (PStr []) ;;
      Ok (u "🟢 **BUY** " ++ Py.to_str sym ++ u " @ $" ++ price
          ++ u " | Conf: " ++ conf ++ u " | "
          ++ slice_to 100 (Py.to_str reasoning)))%result);
    (u "SELL",
     (price <- field meta "price" q ;;
      pnl <- field meta "pnl" q ;;
      pct <- field meta "pnl_percent" q ;;
      Ok (u "🔴 **SELL** " ++ Py.to_str sym ++ u " @ $" ++ price
          ++ u " | P&L: $" ++ pnl ++ u " (" ++ pct ++ u "%)"))%result);
    (u "DCA",
     (price <- field meta "price" q ;;
      avg <- field meta "new_avg_entry" q ;;
      Ok (u "🔵 **DCA** " ++ Py.to_str sym ++ u " @ $" ++ price
          ++ u " | New avg: $" ++ avg))%result);
    (u "PARTIAL_EXIT",
     (pct <- field meta "exit_percent" (PStr []) ;;
      price <- field meta "price" q ;;
      pnl <- field meta "pnl" q ;;
      Ok (u "💰 **PARTIAL EXIT** " ++ Py.to_str sym ++ u " " ++ pct
          ++ u "% @ $" ++ price ++ u " | P&L: $" ++ pnl))%result);
    (u "CIRCUIT_BREAKER",
     (losses <- field meta "consecutive_losses" q ;;
      hours <- field meta "cooldown_hours" q ;;
      Ok (u "⚠️ **CIRCUIT BREAKER** | " ++ losses ++ u " losses | Pausing "
          ++ hours ++ u "h"))%result);
    (u "HOURLY_SUMMARY",
     (open <- field meta "open_positions" (PInt 0) ;;
      unrealized <- field_2f meta "unrealized_pnl" (PInt 0) ;;
      realized <- field_2f meta "realized_pnl" (PInt 0) ;;
      Ok (u "📊 **Hourly** | " ++ open ++ u " positions | P&L: $"
          ++ unrealized ++ u " unrealized, $" ++ realized
          ++ u " realized"))%result);
    (u "ENGINE_START",
     (symbols <- field meta "symbols" q ;;
      capital <- field meta "capital" q ;;
      paper <- field meta "paper_trading" q ;;
      Ok (u "🚀 **Engine Started** | " ++ symbols ++ u " symbols | $"
          ++ capital ++ u " capital | Paper: " ++ paper))%result);
    (u "ENGINE_STOP",
     (cycles <- field meta "cycle_count" q ;;
      Ok (u "🛑 **Engine Stopped** | " ++ cycles
          ++ u " cycles completed"))%result) ].

(** The generic template, for an event type without an entry. *)
Definition default_template (et sym meta : pyval) : result str :=
  Ok (u "📌 **" ++ Py.to_str et ++ u "** " ++ Py.to_str sym ++ u " | "
      ++ slice_to 200 (Py.json_dumps meta)).

Fixpoint assoc {A} (k : str) (table : list (str * A)) : option A :=
  match table with
  | [] => None
  | (k', a) :: rest => if str_eqb k' k then Some a else assoc k rest
  end.

(** [table.get(key, default)] on a dict with string keys: the key is hashed
    first, which a list or a dict refuses. *)
Definition table_get {A} (table : list (str * A)) (key : pyval) (default : A)
  : result A :=
  match key with
  | PStr s => Ok (match assoc s table with Some a => a | None => default end)
  | PList _ | PDict _ => Raise TypeError
  | _ => Ok default
  end.

(** [format_event_fallback(event)] *)
Definition format_event_fallback (event : pyval) : result str :=
  (et <- Py.get event (u "event_type") (PStr (u "UNKNOWN")) ;;
   sym <- Py.get event (u "symbol") (PStr []) ;;
   meta <- Py.get event (u "metadata") PNone ;;
   let meta := fallback_meta meta in
   formatter <- table_get (templates sym meta) et
                  (default_template et sym meta) ;;
   formatter)%result.

(** [format_event_with_ollama(event)] *)
Definition format_event_with_ollama (event : pyval) : Bot.M str :=
  (prompt <- Bot.lift (event_prompt event) ;;
   result <- call_ollama prompt 200 ;;
   match result with
   | Some ((_ :: _) as text) => Bot.ret (slice_to 500 text)
   | _ => Bot.lift (format_event_fallback event)
   end)%bot.

(** *** User query handler *)

(** [v and "data" in v] *)
Definition has_data (v : pyval) : result bool :=
  if Py.truthy v then Py.contains (u "data") v else Ok false.

(** [f"{p.get(key, default):.<prec>f}"] *)
Definition field_f (prec : nat) (p : pyval) (key : string) (default : pyval)
  : result str :=
  (v <- Py.get p (u key) default ;; Py.format_fixed false prec v)%result.

(** The portfolio line of the context. *)
Definition portfolio_section (portfolio : pyval) (context : str)
  : result str :=
  (has <- has_data portfolio ;;
   if has then
     p <- Py.index portfolio (u "data") ;;
     open <- field p "open_count" (PInt 0) ;;
     maxp <- field p "max_positions" (PInt 5) ;;
     let context := context ++ u "Portfolio: " ++ open ++ u "/" ++ maxp
                    ++ u " positions | " in
     invested <- field_f 2 p "total_invested" (PInt 0) ;;
     let context := context ++ u "Invested: $" ++ invested ++ u " | " in
     available <- field_f 2 p "available_capital" (PInt 0) ;;
     let context := context ++ u "Available: $" ++ available ++ u " | " in
     unrealized <- field_f 2 p "unrealized_pnl" (PInt 0) ;;
     unrealized_pct <- field_f 1 p "unrealized_pnl_percent" (PInt 0) ;;
     let context := context ++ u "Unrealized: $" ++ unrealized ++ u " ("
                    ++ unrealized_pct ++ u "%) | " in
     realized <- field_f 2 p "realized_pnl" (PInt 0) ;;
     let context := context ++ u "Realized: $" ++ realized ++ u " | " in
     win_rate <- field_f 1 p "win_rate" (PInt 0) ;;
     trades <- field p "total_trades" (PInt 0) ;;
     Ok (context ++ u "Win rate: " ++ win_rate ++ u "% (" ++ trades
         ++ u " trades)" ++ nl ++ nl)
   else Ok context)%result.

(** One line of the open positions. *)
Definition position_line (pos : pyval) : result str :=
  (sym <- Py.get pos (u "symbol") q ;;
   entry_v <- Py.get pos (u "avg_entry_price") (PInt 0) ;;
   entry <- Py.to_float entry_v ;;
   live_price <- Py.get pos (u "live_price") PNone ;;
   live <- (if Py.truthy live_price then Ok live_price
            else
              current <- Py.get pos (u "current_price") (PInt 0) ;;
              x <- Py.to_float current ;;
              Ok (PFloat x)) ;;
   pnl_pct <- Py.get pos (u "live_pnl_percent") (PInt 0) ;;
   now <- Py.format_fixed false 2 live ;;
   pct <- Py.format_fixed true 1 pnl_pct ;;
   Ok (u "  " ++ Py.to_str sym ++ u ": entry $" ++ float_format false 2 entry
       ++ u ", now $" ++ now ++ u " (" ++ pct ++ u "%)" ++ nl))%result.

(** [for x in items: context += line(x)] *)
Fixpoint add_lines (line : pyval -> result str) (items : list pyval)
  (context : str) : result str :=
  match items with
  | [] => Ok context
  | x :: rest =>
    (l <- line x ;; add_lines line rest (context ++ l))%result
  end.

(** A listing section of the context: a heading, one line for each of the
    first [n] items of [v["data"]], and an empty line. *)
Definition listing_section (heading : str) (n : nat)
  (line : pyval -> result str) (v : pyval) (context : str) : result str :=
  (has <- has_data v ;;
   if has then
     data <- Py.index v (u "data") ;;
     size <- Py.len data ;;
     if 0 <? size then
       let context := context ++ heading ++ nl in
       first <- Py.slice n data ;;
       items <- Py.iter first ;;
       context <- add_lines line items context ;;
       Ok (context ++ nl)
     else Ok context
   else Ok context)%result.

(** One line of the recent decisions. *)
Definition decision_line (d : pyval) : result str :=
  (sym <- field d "symbol" q ;;
   action <- field d "action" q ;;
   conf <- field d "confidence" q ;;
   reasoning <- Py.get d (u "reasoning") (PStr []) ;;
   Ok (u "  " ++ sym ++ u ": " ++ action ++ u " conf:" ++ conf ++ u " — "
       ++ slice_to 120 (Py.to_str reasoning) ++ nl))%result.

(** The context document built from the three snapshots. *)
Definition query_context (portfolio positions decisions : pyval)
  : result str :=
  (let context := u "TRADING SYSTEM DATA:" ++ nl ++ nl in
   context <- portfolio_section portfolio context ;;
   context <- listing_section (u "Open positions:") 5 position_line
                positions context ;;
   listing_section (u "Recent decisions:") 3 decision_line
     decisions context)%result.

Definition backticks : str := u "```".

(** [handle_user_query(question)] *)
Definition handle_user_query (question : str) : Bot.M str :=
  (portfolio <- call_vps_api (u "get_portfolio_summary") None ;;
   positions <- call_vps_api (u "get_positions") None ;;
   decisions <- call_vps_api (u "get_decisions")
                  (Some [(u "limit", PInt 5)]) ;;
   context <- Bot.lift (query_context portfolio positions decisions) ;;
   let prompt :=
     u "You are a helpful trading assistant for the OpenClaw crypto trading system. "
     ++ u "Answer the user's question based on the data below. Be concise (under 1800 chars)."
     ++ nl ++ nl ++ context ++ u "User question: " ++ question in
   answer <- call_ollama prompt 400 ;;
   match answer with
   | Some ((_ :: _) as text) => Bot.ret (slice_to 1900 text)
   | _ =>
     data <- Bot.lift (Py.get portfolio (u "data") (PDict [])) ;;
     Bot.ret (u "**Portfolio:**" ++ nl ++ backticks ++ u "json" ++ nl
              ++ slice_to 1500 (Py.json_dumps_indent 2 data)
              ++ nl ++ backticks)
   end)%bot.

(** *** Polling *)

(** [await report_channel.send(formatted)], for the message of [event]. *)
Definition send (event : pyval) (formatted : str) : Bot.M unit :=
  fun w => let '(r, w') := channel_send formatted w in
           (r, w', [ESend event formatted
                      match r with Ok _ => true | Raise _ => false end]).

(** [if report_channel: send, append the id, log]: what the loop does with
    the formatted message of one event; [report_channel] tells whether the
    report channel was found. *)
Definition post_to_channel (report_channel : bool) (event : pyval)
  (formatted : str) (posted_ids : list pyval) : Bot.M (list pyval) :=
  if report_channel then
    (send event formatted ;;
     id <- Bot.lift (Py.index event (u "id")) ;;
     logged_id <- Bot.lift (Py.index event (u "id")) ;;
     et <- Bot.lift (Py.get event (u "event_type") PNone) ;;
     log_info (u "Posted event #" ++ Py.to_str logged_id ++ u " ("
               ++ Py.to_str et ++ u ")") ;;
     Bot.ret (posted_ids ++ [id]))%bot
  else Bot.ret posted_ids.

(** [for event in events: ...] in [poll_events], over the events that
    remain. *)
Fixpoint deliver_each (report_channel : bool) (events : list pyval)
  (posted_ids : list pyval) : Bot.M (list pyval) :=
  match events with
  | [] => Bot.ret posted_ids
  | event :: rest =>
    (formatted <- format_event_with_ollama event ;;
     posted_ids <- post_to_channel report_channel event formatted
                     posted_ids ;;
     deliver_each report_channel rest posted_ids)%bot
  end.

(** [result and "data" in result and len(result["data"]) > 0] *)
Definition has_events (fetched : pyval) : result bool :=
  (has <- has_data fetched ;;
   if has then
     data <- Py.index fetched (u "data") ;;
     size <- Py.len data ;;
     Ok (0 <? size)
   else Ok false)%result.

(** What one polling cycle attempts: the statements inside the [try] of
    [poll_events], from the fetch to the acknowledgment. *)
Definition poll_cycle_body (report_channel : bool) : Bot.M unit :=
  (result <- call_vps_api (u "get_events") None ;;
   has <- Bot.lift (has_events result) ;;
   if has then
     data <- Bot.lift (Py.index result (u "data")) ;;
     events <- Bot.lift (Py.iter data) ;;
     posted_ids <- deliver_each report_channel events [] ;;
     match posted_ids with
     | _ :: _ =>
       call_vps_api (u "mark_events_posted")
         (Some [(u "eventIds", PList posted_ids)]) ;;
       log_info (u "Marked "
                 ++ str_of_int (Z.of_nat (List.length posted_ids))
                 ++ u " events as posted")
     | [] => Bot.ret tt
     end
   else Bot.ret tt)%bot.

(** One polling cycle: the body of the [while] loop of [poll_events], with
    its [except Exception] at the cycle boundary. *)
Definition poll_cycle (report_channel : bool) : Bot.M unit :=
  Bot.try (poll_cycle_body report_channel)
    (fun e => log_error (u "Poll error: ") (Some e)).

(** [poll_events()]: cycle after cycle; [cycles] bounds how many of them are
    looked at. *)
Fixpoint poll_events (report_channel : bool) (cycles : nat) : Bot.M unit :=
  match cycles with
  | O => Bot.ret tt
  | S n => (poll_cycle report_channel ;; poll_events report_channel n)%bot
  end.

End Program.

(** ** The Discord handlers *)

(** What the handlers read of a text channel and of an incoming message. *)
Record channel : Type := {
  channel_name : str;
  channel_id : Z
}.

Record message : Type := {
  author : Z;
  message_channel : Z;
  content : str
}.

(** [if ch.name == name: current = ch] *)
Definition pick (name : str) (current : option channel) (ch : channel)
  : option channel :=
  if str_eqb (channel_name ch) name then Some ch else current.

(** The two loops of [on_ready] over the text channels of every guild:
    from the current pair (report channel, dashboard channel) to the pair
    after the loops. *)
Definition resolve_channels (report_name dash_name : str)
  (guilds : list (list channel))
  (current : option channel * option channel)
  : option channel * option channel :=
  fold_left
    (fun st guild =>
       fold_left
         (fun st ch => (pick report_name (fst st) ch,
                        pick dash_name (snd st) ch))
         guild st)
    guilds current.

Section Handlers.
Context {rt : PyRuntime} {World : Type} {sv : Services World}.

(** [on_message(message)]: the reply it sends, or [None] when the message
    is ignored; [client_user] is the bot's own user and [dash_channel] the
    dashboard channel found at start-up, if any. *)
Definition on_message (client_user : Z) (dash_channel : option channel)
  (m : message) : Bot.M (option str) :=
  if author m =? client_user then Bot.ret None
  else
    match dash_channel with
    | Some dash =>
      if message_channel m =? channel_id dash then
        (answer <- handle_user_query (content m) ;;
         Bot.ret (Some answer))%bot
      else Bot.ret None
    | None => Bot.ret None
    end.

End Handlers.

(** ** What a trace shows *)

Module Trace.

(** Is this request body an acknowledgment ([mark_events_posted])? *)
Definition is_ack (body : dict) : bool :=
  match Py.dict_get body (u "action") with
  | Some (PStr a) => str_eqb a (u "mark_events_posted")
  | _ => false
  end.

(** The ids an acknowledgment carries. *)
Definition batch (body : dict) : list pyval :=
  match Py.dict_get body (u "eventIds") with
  | Some (PList ids) => ids
  | _ => []
  end.

(** The acknowledgment batches sent, in order. *)
Fixpoint acks (t : list effect) : list (list pyval) :=
  match t with
  | [] => []
  | EPost body :: r => if is_ack body then batch body :: acks r else acks r
  | _ :: r => acks r
  end.

(** The bodies of the HTTP requests issued, in order. *)
Fixpoint posts (t : list effect) : list dict :=
  match t with
  | [] => []
  | EPost body :: r => body :: posts r
  | _ :: r => posts r
  end.

(** The calls to the generative backend, in order. *)
Fixpoint chats (t : list effect) : list (str * Z) :=
  match t with
  | [] => []
  | EChat prompt n :: r => (prompt, n) :: chats r
  | _ :: r => chats r
  end.

(** The events whose message the sink accepted, in order. *)
Fixpoint delivered (t : list effect) : list pyval :=
  match t with
  | [] => []
  | ESend event _ true :: r => event :: delivered r
  | _ :: r => delivered r
  end.

(** The events whose delivery failed. *)
Fixpoint undelivered (t : list effect) : list pyval :=
  match t with
  | [] => []
  | ESend event _ false :: r => event :: undelivered r
  | _ :: r => undelivered r
  end.

(** Effects that reach neither the trading engine nor the sink. *)
Definition internal (e : effect) : Prop :=
  match e with
  | EChat _ _ | ELog _ _ _ => True
  | _ => False
  end.

(** [event["id"]] is [id]. *)
Definition has_id (event id : pyval) : Prop :=
  Py.index event (u "id") = Ok id.

End Trace.

(** ** Events, runtimes and worlds of the examples *)

Module Examples.

#[local] Set Warnings "-inexact-float".

(** The SELL event of the specification's scenario. *)
Definition sell_event : pyval :=
  PDict [ (u "id", PInt 1);
          (u "event_type", PStr (u "SELL"));
          (u "symbol", PStr (u "BTC"));
          (u "metadata",
           PDict [ (u "price", PInt 65000);
                   (u "pnl", PFloat 120.5);
                   (u "pnl_percent", PFloat 1.8) ]) ].

(** A second event, so that a cycle has two. *)
Definition buy_event : pyval :=
  PDict [ (u "id", PInt 2);
          (u "event_type", PStr (u "BUY"));
          (u "symbol", PStr (u "ETH"));
          (u "metadata", PDict [ (u "price", PInt 3200) ]) ].

(** An hourly summary whose unrealized P&L arrives as text. *)
Definition hourly_text_event : pyval :=
  PDict [ (u "id", PInt 3);
          (u "event_type", PStr (u "HOURLY_SUMMARY"));
          (u "metadata", PDict [ (u "unrealized_pnl", PStr (u "12.50")) ]) ].

(** A SELL event with a symbol of 600 characters. *)
Definition long_symbol_event : pyval :=
  PDict [ (u "id", PInt 4);
          (u "event_type", PStr (u "SELL"));
          (u "symbol", PStr (replicate 600 65%N));
          (u "metadata", PDict [ (u "price", PInt 1) ]) ].

(** Events of an unknown type whose metadata is a string that is no JSON. *)
Definition note_event (metadata : string) : pyval :=
  PDict [ (u "id", PInt 5);
          (u "event_type", PStr (u "NOTE"));
          (u "symbol", PStr (u "BTC"));
          (u "metadata", PStr (u metadata)) ].

(** A runtime that answers as CPython does on the strings of the examples:
    [json.loads] of the empty object, and its failure on text that is no
    JSON; [repr] of a plain string without quotes or escapes; [float] is
    asked of no string here. *)
#[export] Instance sample_runtime : PyRuntime := {|
  json_loads := fun s => if str_eqb s (u "{}") then Some (PDict []) else None;
  str_repr := fun s => u "'" ++ s ++ u "'";
  float_of_str := fun _ => None
|}.

(** A scripted world: each kind of call takes the next answer of its queue,
    and fails once the queue is empty. *)
Record script : Type := {
  http_answers : list (result response);
  chat_answers : list (result pyval);
  send_answers : list (result unit)
}.

Definition next {A} (answers : list (result A)) : result A * list (result A) :=
  match answers with
  | [] => (Raise ExternalError, [])
  | a :: rest => (a, rest)
  end.

#[export] Instance scripted : Services script := {|
  requests_post := fun _ w =>
    let '(a, rest) := next (http_answers w) in
    (a, {| http_answers := rest; chat_answers := chat_answers w;
           send_answers := send_answers w |});
  ol_chat := fun _ _ w =>
    let '(a, rest) := next (chat_answers w) in
    (a, {| http_answers := http_answers w; chat_answers := rest;
           send_answers := send_answers w |});
  channel_send := fun _ w =>
    let '(a, rest) := next (send_answers w) in
    (a, {| http_answers := http_answers w; chat_answers := chat_answers w;
           send_answers := rest |})
|}.

(** Every service is down. *)
Definition all_down : script :=
  {| http_answers := []; chat_answers := []; send_answers := [] |}.

(** The engine answers 200 with the given JSON value. *)
Definition ok_response (v : pyval) : result response :=
  Ok {| status_code := 200; text := Py.json_dumps v; json := Ok v |}.

Definition events_response (events : list pyval) : result response :=
  ok_response (PDict [ (u "data", PList events) ]).

(** The engine hands out the BUY event and then the SELL event; the
    generative backend is down; the sink accepts the first message and
    refuses the second. *)
Definition second_send_fails : script :=
  {| http_answers := [ events_response [buy_event; sell_event];
                       ok_response (PDict []) ];
     chat_answers := [];
     send_answers := [ Ok tt; Raise ExternalError ] |}.

(** The same cycle with a sink that accepts both messages. *)
Definition both_sent : script :=
  {| http_answers := [ events_response [buy_event; sell_event];
                       ok_response (PDict []) ];
     chat_answers := [];
     send_answers := [ Ok tt; Ok tt ] |}.

(** The engine is down for the portfolio summary and answers the other two
    requests with empty lists; the generative backend is down. *)
Definition portfolio_down : script :=
  {| http_answers :=
       [ Raise ExternalError;
         ok_response (PDict [ (u "data", PList []) ]);
         ok_response (PDict [ (u "data", PList []) ]) ];
     chat_answers := [];
     send_answers := [] |}.

(** A world in which no service can be reached, ever. *)
#[export] Instance unreachable : Services unit := {|
  requests_post := fun _ w => (Raise ExternalError, w);
  ol_chat := fun _ _ w => (Raise ExternalError, w);
  channel_send := fun _ w => (Raise ExternalError, w)
|}.

(** A world in which the engine cannot be reached and the generative
    backend always answers the same text. *)
#[export] Instance backend_only : Services unit := {|
  requests_post := fun _ w => (Raise ExternalError, w);
  ol_chat := fun _ _ w =>
    (Ok (PDict [ (u "message", PDict [ (u "content", PStr (u "All quiet.")) ]) ]),
     w);
  channel_send := fun _ w => (Raise ExternalError, w)
|}.

(** The generative backend answers with the given text. *)
Definition chat_response (content : string) : result pyval :=
  Ok (PDict [ (u "message", PDict [ (u "content", PStr (u content)) ]) ]).

(** The generative backend is up and formats the SELL event. *)
Definition chatty : script :=
  {| http_answers := [];
     chat_answers := [ chat_response "  Sold BTC at $65000, +1.8%  " ];
     send_answers := [] |}.

(** The engine is down and the generative backend answers the question. *)
Definition chatty_query : script :=
  {| http_answers := [];
     chat_answers := [ chat_response "All quiet." ];
     send_answers := [] |}.

(** The engine has no pending event. *)
Definition no_events : script :=
  {| http_answers := [ events_response [] ];
     chat_answers := [];
     send_answers := [] |}.

(** The SELL event stored a second time: another id, a time stamp, the
    keys in another order, and the same type, symbol and metadata. *)
Definition sell_event_again : pyval :=
  PDict [ (u "created_at", PStr (u "2026-01-01T00:00:00Z"));
          (u "id", PInt 7);
          (u "metadata",
           PDict [ (u "price", PInt 65000);
                   (u "pnl", PFloat 120.5);
                   (u "pnl_percent", PFloat 1.8) ]);
          (u "symbol", PStr (u "BTC"));
          (u "event_type", PStr (u "SELL")) ].

(** Snapshots for the query responder: five open positions followed by a
    sixth item that is no position, and three decisions followed by a
    fourth item that is no decision. *)
Definition open_position (symbol : string) (entry now : Z) : pyval :=
  PDict [ (u "symbol", PStr (u symbol));
          (u "avg_entry_price", PInt entry);
          (u "current_price", PInt now);
          (u "live_pnl_percent", PFloat 2.5) ].

Definition decision (symbol action : string) (confidence : Z) : pyval :=
  PDict [ (u "symbol", PStr (u symbol));
          (u "action", PStr (u action));
          (u "confidence", PInt confidence);
          (u "reasoning", PStr (u "trend")) ].

Definition six_positions : list pyval :=
  [ open_position "BTC" 60000 65000; open_position "ETH" 3000 3200;
    open_position "SOL" 140 150; open_position "ADA" 1 2;
    open_position "XRP" 2 3; PInt 6 ].

Definition four_decisions : list pyval :=
  [ decision "BTC" "BUY" 80; decision "ETH" "SELL" 70;
    decision "SOL" "HOLD" 60; PNone ].

End Examples.

(** ** Vocabulary of the properties *)

(** The generative formatter yielded no text: [None], or an empty string. *)
Definition no_text (r : result (option str)) : Prop :=
  r = Ok None \/ r = Ok (Some []).

Definition is_dict (v : pyval) : bool :=
  match v with PDict _ => true | _ => false end.

(** Can the value be the key of a dict lookup? *)
Definition hashable (v : pyval) : bool :=
  match v with PList _ | PDict _ => false | _ => true end.

(** What [d.get(key, default)] yields. *)
Definition lookup (d : dict) (key : string) (default : pyval) : pyval :=
  match Py.dict_get d (u key) with Some v => v | None => default end.

(** Does the event type have a template of its own? *)
Definition known_type {rt : PyRuntime} (et : pyval) : bool :=
  match et with
  | PStr s =>
    match assoc s (templates PNone PNone) with Some _ => true | None => false end
  | _ => false
  end.

(** A number that the [f] format code accepts: a float, a bool, or an int
    that converts to a float. *)
Definition is_number (v : pyval) : Prop :=
  match v with
  | PFloat _ | PBool _ => True
  | PInt n => float_of_int n <> None
  | _ => False
  end.

(** The two fields an hourly summary formats as numbers, with their
    default. *)
Definition hourly_numbers (meta : pyval) : Prop :=
  forall m, meta = PDict m ->
    is_number (lookup m "unrealized_pnl" (PInt 0))
    /\ is_number (lookup m "realized_pnl" (PInt 0)).

(** What the loop may do with formatted messages: no request to the
    engine; and when it goes through, no failed delivery, and the ids it
    adds to [posted] are those of the events it delivered, in order. *)
Definition delivery_ok {World : Type} (posted : list pyval)
  (out : result (list pyval) * World * list effect) : Prop :=
  Trace.posts (Bot.effects out) = []
  /\ forall ids, Bot.value out = Ok ids ->
       Trace.undelivered (Bot.effects out) = []
       /\ exists new, ids = posted ++ new
            /\ Forall2 Trace.has_id (Trace.delivered (Bot.effects out)) new.

(** In this trace every acknowledgment carries only ids of events that
    were delivered before it (or that are in [seen]). *)
Fixpoint acks_follow_deliveries (seen : list pyval) (t : list effect) : Prop :=
  match t with
  | [] => True
  | EPost body :: r =>
    (Trace.is_ack body = true ->
     forall id, In id (Trace.batch body) ->
       exists event, In event seen /\ Trace.has_id event id)
    /\ acks_follow_deliveries seen r
  | ESend event _ true :: r => acks_follow_deliveries (event :: seen) r
  | _ :: r => acks_follow_deliveries seen r
  end.

(** The trace of a polling cycle: the fetch, then the deliveries, then
    either nothing that reaches the engine or the sink, or one
    acknowledgment of a non-empty batch, the ids of the delivered events,
    none of whose deliveries failed. *)
Definition cycle_shape (t : list effect) : Prop :=
  exists pre del tail,
    t = pre ++ del ++ tail
    /\ Trace.acks pre = [] /\ Trace.delivered pre = []
    /\ Trace.undelivered pre = []
    /\ Trace.posts del = []
    /\ (Forall Trace.internal tail
        \/ exists ids logs,
             tail = EPost (request_body (u "mark_events_posted")
                             (Some [(u "eventIds", PList ids)])) :: logs
             /\ ids <> []
             /\ Forall Trace.internal logs
             /\ Forall2 Trace.has_id (Trace.delivered del) ids
             /\ Trace.undelivered del = []).

(** The fetch brought these events: the answer has a non-empty [data],
    and iterating over it visits [events]. *)
Definition fetched (v : pyval) (events : list pyval) : Prop :=
  has_events v = Ok true
  /\ exists data, Py.index v (u "data") = Ok data /\ Py.iter data = Ok events.

(** The request of a fetch and the request of an acknowledgment. *)
Definition fetch_request : dict := request_body (u "get_events") None.

Definition ack_request (ids : list pyval) : dict :=
  request_body (u "mark_events_posted") (Some [(u "eventIds", PList ids)]).

(** A text without white space at either end. *)
Definition trimmed (s : str) : Prop :=
  (forall c r, s = c :: r -> is_space c = false)
  /\ (forall c r, s = r ++ [c] -> is_space c = false).

(** The response of the backend carries this text. *)
Definition chat_content (resp : pyval) (text : str) : Prop :=
  exists m, Py.index resp (u "message") = Ok m
            /\ Py.index m (u "content") = Ok (PStr text).

(** The last channel of that name, in the order the loops visit them. *)
Definition last_named (name : str) (guilds : list (list channel))
  : option channel :=
  find (fun ch => str_eqb (channel_name ch) name)
    (rev (List.concat guilds)).

(** Two events answer alike when asked for their type, their symbol and
    their metadata, whatever the default of the question. *)
Definition same_rendered_fields (e1 e2 : pyval) : Prop :=
  forall key, In key [u "event_type"; u "symbol"; u "metadata"] ->
    forall default, Py.get e1 key default = Py.get e2 key default.

(** * Properties *)

Import Examples.

(** ** Strings, dicts and the monad *)

Lemma str_eqb_eq a b : str_eqb a b = true <-> a = b.
Proof.
  unfold str_eqb. destruct (list_eq_dec N.eq_dec a b); split; congruence.
Qed.

Lemma str_eqb_refl a : str_eqb a a = true.
Proof. now apply str_eqb_eq. Qed.

Lemma str_eqb_neq a b : a <> b -> str_eqb a b = false.
Proof.
  intros H. destruct (str_eqb a b) eqn:E; trivial.
  apply str_eqb_eq in E. contradiction.
Qed.

Lemma app_nonempty {A} (a b : list A) : a <> [] -> a ++ b <> [].
Proof. destruct a; [congruence | discriminate]. Qed.

(** A pure step has no effect and leaves the world alone. *)
Lemma lift_pure {World A} (r : result A) (w : World) :
  Bot.lift r w = (r, w, []).
Proof. reflexivity. Qed.

(** ** The formatting pipeline *)

(** The prompt can only fail where the fallback formatter fails in the
    same way: on an event that has no [get]. *)
Lemma event_prompt_raise {rt : PyRuntime} (event : pyval) (e : exn) :
  event_prompt event = Raise e -> format_event_fallback event = Raise e.
Proof.
  destruct event; cbn; congruence.
Qed.

(** C6 (fallback equivalence): when the generative formatter yields no text
    for the prompt of an event, [format_event_with_ollama] returns exactly
    what [format_event_fallback] returns for that event (the same string,
    or the same exception). *)
Theorem fallback_equivalence {rt : PyRuntime} {World : Type} {sv : Services World}
  (event : pyval) (w : World) :
  (forall prompt, event_prompt event = Ok prompt ->
                  no_text (Bot.value (call_ollama prompt 200 w))) ->
  Bot.value (format_event_with_ollama event w) = format_event_fallback event.
Proof.
  intros H. unfold format_event_with_ollama, Bot.bind, Bot.lift.
  destruct (event_prompt event) as [prompt | e] eqn:E.
  - specialize (H prompt eq_refl).
    destruct (call_ollama prompt 200 w) as [[r w1] t1].
    unfold Bot.value in *. cbn [fst] in H.
    destruct H as [-> | ->]; reflexivity.
  - symmetry. now apply event_prompt_raise.
Qed.

Lemma fallback_equivalence_witness :
  Bot.value (format_event_with_ollama sell_event all_down)
  = format_event_fallback sell_event.
Proof.
  apply (fallback_equivalence sell_event all_down).
  intros prompt _. left. reflexivity.
Defined.

(** C9 (SELL scenario): for the event
    [{id: 1, event_type: "SELL", symbol: "BTC", metadata: {price: 65000,
    pnl: 120.5, pnl_percent: 1.8}}] the deterministic formatter returns
    exactly the scenario's string, and so does the pipeline when the
    generative backend is down. *)
Theorem sell_scenario {rt : PyRuntime} :
  format_event_fallback sell_event
  = Ok (u "🔴 **SELL** BTC @ $65000 | P&L: $120.5 (1.8%)")
  /\ Bot.value (format_event_with_ollama sell_event all_down)
     = Ok (u "🔴 **SELL** BTC @ $65000 | P&L: $120.5 (1.8%)").
Proof. split; vm_compute; reflexivity. Qed.

(** With a backend that yields no text, whatever the prompt, the pipeline
    returns what the deterministic formatter returns. *)
Lemma silent_backend_gives_fallback {rt : PyRuntime} {World : Type}
  {sv : Services World} (event : pyval) (w : World) :
  (forall prompt, no_text (Bot.value (call_ollama prompt 200 w))) ->
  Bot.value (format_event_with_ollama event w) = format_event_fallback event.
Proof.
  intros H. unfold format_event_with_ollama, Bot.bind, Bot.lift.
  destruct (event_prompt event) as [prompt | e] eqn:E.
  - specialize (H prompt).
    destruct (call_ollama prompt 200 w) as [[r w1] t1].
    unfold Bot.value in *. cbn [fst] in H.
    destruct H as [-> | ->]; reflexivity.
  - symmetry. now apply event_prompt_raise.
Qed.

(** C10 (determinism of the fallback tier): what [format_event_fallback]
    returns is decided by what the event answers for its type, its symbol
    and its metadata, and by nothing else: two events that agree there, and
    so two evaluations on the same event, give the same string or the same
    exception, whatever else the events hold (an id, a time stamp, the order
    of the keys).  The state of the outside world has no part in it: in any
    two states of the world in which the generative backend yields no text,
    the pipeline returns that same outcome for both events. *)
Theorem fallback_deterministic {rt : PyRuntime} {World : Type}
  {sv : Services World} (e1 e2 : pyval) :
  same_rendered_fields e1 e2 ->
  format_event_fallback e1 = format_event_fallback e2
  /\ (forall w1 w2 : World,
        (forall prompt, no_text (Bot.value (call_ollama prompt 200 w1))) ->
        (forall prompt, no_text (Bot.value (call_ollama prompt 200 w2))) ->
        Bot.value (format_event_with_ollama e1 w1)
        = Bot.value (format_event_with_ollama e2 w2)).
Proof.
  intros S.
  assert (F : format_event_fallback e1 = format_event_fallback e2).
  { unfold format_event_fallback.
    rewrite (S (u "event_type")) by (cbn [In]; tauto).
    rewrite (S (u "symbol")) by (cbn [In]; tauto).
    rewrite (S (u "metadata")) by (cbn [In]; tauto).
    reflexivity. }
  split; [exact F | ].
  intros w1 w2 H1 H2.
  rewrite (silent_backend_gives_fallback e1 w1 H1).
  rewrite (silent_backend_gives_fallback e2 w2 H2).
  exact F.
Qed.

Lemma fallback_deterministic_witness :
  format_event_fallback (rt := sample_runtime) sell_event
  = format_event_fallback (rt := sample_runtime) sell_event_again
  /\ Bot.value (format_event_with_ollama (rt := sample_runtime) sell_event
                  all_down)
     = Bot.value (format_event_with_ollama (rt := sample_runtime)
                    sell_event_again both_sent).
Proof.
  destruct (fallback_deterministic (rt := sample_runtime) (sv := scripted)
              sell_event sell_event_again) as [F P].
  - intros key [<- | [<- | [<- | []]]] default; reflexivity.
  - split; [exact F | ].
    apply P; intros prompt; left; reflexivity.
Defined.

(** ** The API client *)

(** C8 (API client totality): [call_vps_api] issues exactly one request and
    always returns: the parsed JSON when the status is 200 and the body
    parses, and [None] on any other status, on a body that does not parse,
    and on a failed request.  It never raises. *)
Theorem call_vps_api_total {World : Type} {sv : Services World}
  (action : str) (extra_data : option dict) (w : World) :
  let body := request_body action extra_data in
  let out := call_vps_api action extra_data w in
  let answer := fst (requests_post body w) in
  Trace.posts (Bot.effects out) = [body]
  /\ (exists v, Bot.value out = Ok v)
  /\ (forall resp v, answer = Ok resp -> status_code resp = 200 ->
                     json resp = Ok v -> Bot.value out = Ok v)
  /\ (forall resp, answer = Ok resp -> status_code resp <> 200 ->
                   Bot.value out = Ok PNone)
  /\ (forall resp e, answer = Ok resp -> json resp = Raise e ->
                     Bot.value out = Ok PNone)
  /\ (forall e, answer = Raise e -> Bot.value out = Ok PNone).
Proof.
  cbv zeta.
  unfold call_vps_api, Bot.try, Bot.bind, post, Bot.lift, log_error,
    Bot.emit, Bot.ret, Bot.value, Bot.effects.
  destruct (requests_post (request_body action extra_data) w)
    as [[resp | e] w1]; cbn [fst snd].
  - destruct (status_code resp =? 200) eqn:S.
    + apply Z.eqb_eq in S.
      destruct (json resp) as [v | e] eqn:J; cbn;
        repeat split; eauto; intros; try congruence.
    + apply Z.eqb_neq in S. cbn.
      repeat split; eauto; intros; try congruence.
  - cbn. repeat split; eauto; intros; congruence.
Qed.

(** ** The deterministic formatter *)

Lemma get_dict (d : dict) (key : string) (default : pyval) :
  Py.get (PDict d) (u key) default = Ok (lookup d key default).
Proof. reflexivity. Qed.

Lemma field_dict {rt : PyRuntime} (m : dict) (key : string) (default : pyval) :
  field (PDict m) key default = Ok (Py.to_str (lookup m key default)).
Proof. reflexivity. Qed.

Lemma format_fixed_number {rt : PyRuntime} plus prec (v : pyval) :
  is_number v -> exists s, Py.format_fixed plus prec v = Ok s.
Proof.
  destruct v; cbn; try contradiction; eauto.
  destruct (float_of_int n); [eauto | congruence].
Qed.

Lemma literal_nonempty (lit : string) (rest : str) :
  u lit <> [] -> u lit ++ rest <> [].
Proof. apply app_nonempty. Qed.

(** One entry of the table: either it is the one looked up, and the goal
    is about its template, or the search goes on. *)
Ltac table_entry s :=
  match goal with
  | |- context [str_eqb ?k s] =>
    let E := fresh "E" in
    destruct (str_eqb k s) eqn:E;
    [ apply str_eqb_eq in E; subst s | ]
  end.

Ltac nonempty_literal :=
  apply literal_nonempty; vm_compute; discriminate.

(** Whether a type has a template does not depend on the event. *)
Lemma assoc_templates {rt : PyRuntime} (s : str) (sym meta : pyval) :
  assoc s (templates sym meta) = None <-> known_type (PStr s) = false.
Proof.
  unfold known_type, templates. cbn [assoc].
  repeat (table_entry s; [ split; intros H; discriminate | ]).
  split; reflexivity.
Qed.

(** Every template succeeds on a dict, the hourly one when its two numbers
    are numbers; and its text starts with its emoji. *)
Lemma templates_ok {rt : PyRuntime} (s : str) (sym : pyval) (m : dict) :
  (s = u "HOURLY_SUMMARY" -> hourly_numbers (PDict m)) ->
  match assoc s (templates sym (PDict m)) with
  | Some f => exists out, f = Ok out /\ out <> []
  | None => True
  end.
Proof.
  intros N. unfold templates. cbn [assoc].
  repeat (table_entry s;
          [ cbv beta iota; rewrite ?field_dict; cbn [rbind Py.get];
            try (eexists; split; [reflexivity | nonempty_literal]) | ]);
    trivial.
  destruct (N eq_refl m eq_refl) as [N1 N2].
  unfold field_2f. cbn [Py.get rbind].
  fold (lookup m "unrealized_pnl" (PInt 0)).
  fold (lookup m "realized_pnl" (PInt 0)).
  destruct (format_fixed_number false 2 _ N1) as [s1 ->].
  destruct (format_fixed_number false 2 _ N2) as [s2 ->].
  cbn [rbind]. eexists; split; [reflexivity | nonempty_literal].
Qed.

(** The deterministic formatter returns a non-empty string on every event
    that is a dict with a hashable type and, where the type has a template,
    with metadata that renders as a dict (and as numbers where the hourly
    template formats numbers). *)
Lemma fallback_ok {rt : PyRuntime} (d : dict) :
  let et := lookup d "event_type" (PStr (u "UNKNOWN")) in
  let meta := fallback_meta (lookup d "metadata" PNone) in
  hashable et = true ->
  (known_type et = true -> is_dict meta = true) ->
  (et = PStr (u "HOURLY_SUMMARY") -> hourly_numbers meta) ->
  exists out, format_event_fallback (PDict d) = Ok out /\ out <> [].
Proof.
  cbv zeta. intros Hh Hk Hn.
  unfold format_event_fallback. rewrite !get_dict. cbn [rbind].
  set (et := lookup d "event_type" (PStr (u "UNKNOWN"))) in *.
  set (sym := lookup d "symbol" (PStr [])).
  set (meta := fallback_meta (lookup d "metadata" PNone)) in *.
  assert (D : exists out, default_template et sym meta = Ok out /\ out <> []).
  { unfold default_template. eexists; split; [reflexivity | nonempty_literal]. }
  destruct et as [ | b | n | x | s | l | l]; try discriminate Hh;
    cbn [table_get rbind]; trivial.
  destruct (assoc s (templates sym meta)) as [f | ] eqn:A; trivial.
  assert (K : known_type (PStr s) = true).
  { destruct (known_type (PStr s)) eqn:K; trivial.
    apply (assoc_templates s sym meta) in K. congruence. }
  specialize (Hk K). destruct meta as [ | | | | | | m]; try discriminate Hk.
  assert (T := templates_ok s sym m). rewrite A in T.
  apply T. intros ->. now apply Hn.
Qed.

(** C3 (total formatting, amended): [format_event_fallback] returns a
    non-empty string and does not raise on every event that is a dict whose
    [event_type] is hashable, provided that, when the type has a template,
    the metadata (decoded when it is a string that decodes, emptied when it
    does not or when it is falsy) is a dict, and that the two P&L fields of
    an hourly summary, when present, are numbers.  A missing symbol, missing
    metadata keys, missing, empty or undecodable metadata and unknown event
    types are all covered. *)
Theorem fallback_total_on_dict_events {rt : PyRuntime} (d : dict) :
  let et := lookup d "event_type" (PStr (u "UNKNOWN")) in
  let meta := fallback_meta (lookup d "metadata" PNone) in
  hashable et = true ->
  (known_type et = true -> is_dict meta = true) ->
  (et = PStr (u "HOURLY_SUMMARY") -> hourly_numbers meta) ->
  exists out, format_event_fallback (PDict d) = Ok out /\ out <> [].
Proof.
  cbv zeta. intros Hh Hk Hn.
  destruct (fallback_ok d Hh Hk Hn) as [out [E N]].
  exists out. split; assumption.
Qed.

Lemma zero_is_number : is_number (PInt 0).
Proof. vm_compute. discriminate. Qed.

Lemma empty_hourly_numbers : hourly_numbers (PDict []).
Proof.
  intros m E. injection E as <-. split; exact zero_is_number.
Qed.

Lemma fallback_total_on_dict_events_witness :
  exists out,
    format_event_fallback (rt := sample_runtime)
      (PDict [ (u "event_type", PStr (u "HOURLY_SUMMARY"));
               (u "metadata", PStr (u "{}")) ]) = Ok out
    /\ out <> [].
Proof.
  apply (fallback_total_on_dict_events (rt := sample_runtime)
           [ (u "event_type", PStr (u "HOURLY_SUMMARY"));
             (u "metadata", PStr (u "{}")) ]).
  - vm_compute. reflexivity.
  - intros _. vm_compute. reflexivity.
  - intros _. exact empty_hourly_numbers.
Defined.

(** Where C3 as stated fails: an hourly summary whose P&L is text, a BUY
    event whose metadata is a list, an event whose type is a list, and an
    event that is no dict all make [format_event_fallback] raise. *)
Lemma fallback_raises_on_ill_typed_events :
  format_event_fallback (rt := sample_runtime) hourly_text_event
  = Raise ValueError
  /\ format_event_fallback (rt := sample_runtime)
       (PDict [ (u "event_type", PStr (u "BUY"));
                (u "metadata", PList [PInt 1]) ])
     = Raise AttributeError
  /\ format_event_fallback (rt := sample_runtime)
       (PDict [ (u "event_type", PList [PStr (u "BUY")]) ])
     = Raise TypeError
  /\ format_event_fallback (rt := sample_runtime) (PStr (u "BUY"))
     = Raise AttributeError.
Proof. repeat split; vm_compute; reflexivity. Qed.

(** C4 (length bound), where the code departs from it: with the generative
    backend down, the pipeline returns the fallback text of a SELL event
    with a 600-character symbol untruncated, 631 characters long. *)
Theorem fallback_branch_exceeds_bound {rt : PyRuntime} :
  exists out,
    Bot.value (format_event_with_ollama long_symbol_event all_down) = Ok out
    /\ format_event_fallback long_symbol_event = Ok out
    /\ List.length out = 631%nat
    /\ (500 < List.length out)%nat.
Proof.
  eexists. split; [vm_compute; reflexivity | ].
  split; [vm_compute; reflexivity | ].
  split; [vm_compute; reflexivity | vm_compute; lia ].
Qed.

(** The generative branch does keep the bound: a non-empty text is cut to
    its first 500 characters. *)
Lemma generative_branch_bounded {rt : PyRuntime} {World : Type}
  {sv : Services World} (event : pyval) (w : World) (prompt text : str) :
  event_prompt event = Ok prompt ->
  Bot.value (call_ollama prompt 200 w) = Ok (Some text) ->
  text <> [] ->
  exists out,
    Bot.value (format_event_with_ollama event w) = Ok out
    /\ out = slice_to 500 text
    /\ out <> []
    /\ (List.length out <= 500)%nat.
Proof.
  intros P C T. unfold format_event_with_ollama, Bot.bind, Bot.lift.
  rewrite P. destruct (call_ollama prompt 200 w) as [[r w1] t1].
  unfold Bot.value in *. cbn [fst] in C. subst r.
  destruct text as [ | c text]; [congruence | ].
  eexists. split; [reflexivity | ]. split; [reflexivity | ].
  split; [discriminate | ].
  unfold slice_to. rewrite length_firstn. lia.
Qed.

(** ** Metadata that does not decode *)

Lemma dict_get_set_same (d : dict) (k : str) (v : pyval) :
  Py.dict_get (Py.dict_set d k v) k = Some v.
Proof.
  induction d as [ | [k' v'] d IH]; cbn.
  - now rewrite str_eqb_refl.
  - destruct (str_eqb k' k) eqn:E; cbn; rewrite E; trivial.
Qed.

Lemma dict_get_set_other (d : dict) (k k' : str) (v : pyval) :
  k <> k' -> Py.dict_get (Py.dict_set d k v) k' = Py.dict_get d k'.
Proof.
  intros N. induction d as [ | [k0 v0] d IH]; cbn.
  - now rewrite (str_eqb_neq k k').
  - destruct (str_eqb k0 k) eqn:E; cbn.
    + apply str_eqb_eq in E. subst k0. now rewrite (str_eqb_neq k k').
    + now rewrite IH.
Qed.

Lemma lookup_set_same (d : dict) (key : string) (v default : pyval) :
  lookup (Py.dict_set d (u key) v) key default = v.
Proof. unfold lookup. now rewrite dict_get_set_same. Qed.

Lemma lookup_set_other (d : dict) (k key : string) (v default : pyval) :
  u k <> u key ->
  lookup (Py.dict_set d (u k) v) key default = lookup d key default.
Proof. intros N. unfold lookup. now rewrite dict_get_set_other. Qed.

(** C7 (best-effort metadata decode, amended): when the metadata of an
    event is a string that does not decode, [format_event_with_ollama] keeps
    the string and renders its JSON encoding (cut to 500 characters) into
    the prompt, while [format_event_fallback] replaces it by an empty dict
    and formats the event as it would with empty metadata; the failure is
    not fatal: the fallback still returns a non-empty string whenever the
    event type is hashable. *)
Theorem undecodable_metadata {rt : PyRuntime} (d : dict) (s : str) :
  lookup d "metadata" PNone = PStr s ->
  json_loads s = None ->
  ollama_meta (PStr s) = PStr s
  /\ (exists before after,
        event_prompt (PDict d)
        = Ok (before ++ u "Data: " ++ slice_to 500 (Py.json_string s)
              ++ after))
  /\ fallback_meta (PStr s) = PDict []
  /\ format_event_fallback (PDict d)
     = format_event_fallback
         (PDict (Py.dict_set d (u "metadata") (PDict [])))
  /\ (hashable (lookup d "event_type" (PStr (u "UNKNOWN"))) = true ->
      exists out, format_event_fallback (PDict d) = Ok out /\ out <> []).
Proof.
  intros M J.
  assert (F : fallback_meta (PStr s) = PDict []).
  { unfold fallback_meta. now rewrite J. }
  repeat split.
  - unfold ollama_meta. now rewrite J.
  - unfold event_prompt. rewrite !get_dict. cbn [rbind]. rewrite M.
    unfold ollama_meta. rewrite J.
    exists (u "Format this trading event as a short Discord message. "
            ++ u "Use emoji. Keep under 300 characters. Be concise."
            ++ nl ++ nl
            ++ u "Type: " ++ Py.to_str (lookup d "event_type" PNone) ++ nl
            ++ u "Symbol: "
            ++ Py.to_str (lookup d "symbol" (PStr (u "N/A"))) ++ nl),
           (nl ++ u "Time: "
            ++ Py.to_str (lookup d "created_at" (PStr []))).
    rewrite <- !app_assoc. reflexivity.
  - exact F.
  - unfold format_event_fallback. rewrite !get_dict. cbn [rbind].
    rewrite lookup_set_same, M, F.
    rewrite !lookup_set_other by (vm_compute; discriminate).
    reflexivity.
  - intros H. apply fallback_ok; rewrite ?M, ?F; trivial.
    intros _. exact empty_hourly_numbers.
Qed.

Lemma undecodable_metadata_witness :
  ollama_meta (rt := sample_runtime) (PStr (u "not json"))
  = PStr (u "not json")
  /\ fallback_meta (rt := sample_runtime) (PStr (u "not json")) = PDict [].
Proof.
  destruct (undecodable_metadata (rt := sample_runtime)
              [ (u "id", PInt 5);
                (u "event_type", PStr (u "NOTE"));
                (u "symbol", PStr (u "BTC"));
                (u "metadata", PStr (u "not json")) ]
              (u "not json"))
    as [K [_ [F _]]].
  - vm_compute. reflexivity.
  - vm_compute. reflexivity.
  - split; assumption.
Defined.

(** Where C7 as stated fails: the deterministic formatter does not keep a
    string that fails to decode.  Its rendering logic receives an empty
    dict, and the text it returns is the same whatever the string was. *)
Lemma fallback_drops_undecodable_metadata :
  json_loads (PyRuntime := sample_runtime) (u "not json") = None
  /\ fallback_meta (rt := sample_runtime) (PStr (u "not json"))
     <> PStr (u "not json")
  /\ format_event_fallback (rt := sample_runtime) (note_event "not json")
     = Ok (u "📌 **NOTE** BTC | {}")
  /\ format_event_fallback (rt := sample_runtime) (note_event "neither")
     = Ok (u "📌 **NOTE** BTC | {}").
Proof.
  repeat split; try (vm_compute; reflexivity).
  vm_compute. discriminate.
Qed.

(** ** Traces of the polling cycle *)

Lemma posts_app (a b : list effect) :
  Trace.posts (a ++ b) = Trace.posts a ++ Trace.posts b.
Proof.
  induction a as [ | [] a IH]; cbn; rewrite ?IH; reflexivity.
Qed.

Lemma acks_app (a b : list effect) :
  Trace.acks (a ++ b) = Trace.acks a ++ Trace.acks b.
Proof.
  induction a as [ | [body | | | ] a IH]; cbn; rewrite ?IH; trivial.
  destruct (Trace.is_ack body); reflexivity.
Qed.

Lemma delivered_app (a b : list effect) :
  Trace.delivered (a ++ b) = Trace.delivered a ++ Trace.delivered b.
Proof.
  induction a as [ | [ | | event m [] | ] a IH]; cbn; rewrite ?IH; reflexivity.
Qed.

Lemma undelivered_app (a b : list effect) :
  Trace.undelivered (a ++ b) = Trace.undelivered a ++ Trace.undelivered b.
Proof.
  induction a as [ | [ | | event m [] | ] a IH]; cbn; rewrite ?IH; reflexivity.
Qed.

(** Internal effects show nothing to the engine or to the sink. *)
Lemma internal_quiet (t : list effect) :
  Forall Trace.internal t ->
  Trace.posts t = [] /\ Trace.acks t = [] /\ Trace.delivered t = []
  /\ Trace.undelivered t = [].
Proof.
  induction 1 as [ | e t I _ IH]; [now repeat split | ].
  destruct e; cbn in *; try contradiction; exact IH.
Qed.

Lemma no_posts_no_acks (t : list effect) :
  Trace.posts t = [] -> Trace.acks t = [].
Proof.
  induction t as [ | [] t IH]; cbn; trivial. discriminate.
Qed.

Lemma delivered_sent (event : pyval) (t : list effect) :
  In event (Trace.delivered t) ->
  exists message, In (ESend event message true) t.
Proof.
  induction t as [ | e t IH]; cbn [Trace.delivered]; [contradiction | ].
  assert (K : In event (Trace.delivered t) ->
              exists message, In (ESend event message true) (e :: t)).
  { intros H. destruct (IH H) as [message I]. exists message. now right. }
  destruct e as [ | | ev m [] | ]; trivial.
  intros [-> | H]; [ | now apply K].
  exists m. now left.
Qed.

(** The request of a fetch is no acknowledgment; the acknowledgment carries
    the action and the batch. *)
Lemma fetch_is_no_ack :
  Trace.is_ack (request_body (u "get_events") None) = false.
Proof. vm_compute. reflexivity. Qed.

Lemma ack_body (ids : list pyval) :
  let body := request_body (u "mark_events_posted")
                (Some [(u "eventIds", PList ids)]) in
  Trace.is_ack body = true /\ Trace.batch body = ids.
Proof. split; vm_compute; reflexivity. Qed.

Section Cycle.
Context {rt : PyRuntime} {World : Type} {sv : Services World}.

(** [call_vps_api] always returns, having issued one request and logged at
    most. *)
Lemma call_vps_api_shape (action : str) (extra_data : option dict) (w : World) :
  exists v w' logs,
    call_vps_api action extra_data w
    = (Ok v, w', EPost (request_body action extra_data) :: logs)
    /\ Forall Trace.internal logs.
Proof.
  unfold call_vps_api, Bot.try, Bot.bind, post, Bot.lift, log_error,
    Bot.emit, Bot.ret.
  destruct (requests_post (request_body action extra_data) w)
    as [[resp | e] w1].
  - destruct (status_code resp =? 200).
    + destruct (json resp) as [v | e]; cbn [app];
        repeat eexists; repeat constructor.
    + cbn [app]. repeat eexists; repeat constructor.
  - cbn [app]. repeat eexists; repeat constructor.
Qed.

(** [call_ollama] always returns, and reaches nothing but the backend and
    the log. *)
Lemma call_ollama_shape (prompt : str) (max_tokens : Z) (w : World) :
  exists r w' t,
    call_ollama prompt max_tokens w = (Ok r, w', t)
    /\ Forall Trace.internal t.
Proof.
  unfold call_ollama, Bot.try, Bot.bind, chat, Bot.lift, log_error,
    Bot.emit, Bot.ret.
  destruct (ol_chat prompt max_tokens w) as [[resp | e] w1];
    [ destruct (Py.index resp (u "message")) as [message | e];
      [ destruct (Py.index message (u "content")) as [content | e];
        [ destruct content | ] | ] | ];
    cbn [app]; repeat eexists; repeat constructor.
Qed.

Lemma format_event_shape (event : pyval) (w : World) :
  exists r w' t,
    format_event_with_ollama event w = (r, w', t)
    /\ Forall Trace.internal t.
Proof.
  unfold format_event_with_ollama, Bot.bind, Bot.lift.
  destruct (event_prompt event) as [prompt | e].
  - destruct (call_ollama_shape prompt 200 w) as (r & w1 & t & E & I).
    rewrite E.
    destruct r as [[ | c text] | ]; unfold Bot.ret; rewrite ?app_nil_r;
      repeat eexists; exact I.
  - repeat eexists. constructor.
Qed.

Lemma post_to_channel_spec (rc : bool) (event : pyval) (formatted : str)
  (posted : list pyval) (w : World) :
  delivery_ok posted (post_to_channel rc event formatted posted w).
Proof.
  unfold delivery_ok, post_to_channel. destruct rc.
  - unfold Bot.bind, send, Bot.lift, log_info, Bot.emit, Bot.ret,
      Bot.value, Bot.effects.
    destruct (channel_send formatted w) as [[[] | e] w1].
    + destruct (Py.index event (u "id")) as [id | e] eqn:I.
      * destruct (Py.get event (u "event_type") PNone) as [et | e'].
        -- cbn [fst snd app Trace.posts Trace.delivered Trace.undelivered].
           split; [reflexivity | ]. intros ids H. injection H as <-.
           split; [reflexivity | ]. exists [id]. split; [reflexivity | ].
           constructor; [exact I | constructor].
        -- cbn [fst snd app Trace.posts]. split; [reflexivity | ].
           intros ids H. discriminate H.
      * cbn [fst snd app Trace.posts]. split; [reflexivity | ].
        intros ids H. discriminate H.
    + cbn [fst snd app Trace.posts]. split; [reflexivity | ].
      intros ids H. discriminate H.
  - unfold Bot.ret, Bot.value, Bot.effects. cbn [fst snd Trace.posts].
    split; [reflexivity | ]. intros ids H. injection H as <-.
    split; [reflexivity | ]. exists []. split; [now rewrite app_nil_r | ].
    constructor.
Qed.

Lemma deliver_each_spec (rc : bool) (events : list pyval) :
  forall (posted : list pyval) (w : World),
    delivery_ok posted (deliver_each rc events posted w).
Proof.
  induction events as [ | event rest IH]; intros posted w; cbn [deliver_each].
  - unfold delivery_ok, Bot.ret, Bot.value, Bot.effects. cbn [fst snd].
    split; [reflexivity | ]. intros ids H. injection H as <-.
    split; [reflexivity | ]. exists []. split; [now rewrite app_nil_r | ].
    constructor.
  - unfold Bot.bind at 1.
    destruct (format_event_shape event w) as (r & w1 & t1 & E & I).
    rewrite E. apply internal_quiet in I. destruct I as (P1 & _ & D1 & U1).
    destruct r as [formatted | e].
    + unfold Bot.bind.
      assert (S := post_to_channel_spec rc event formatted posted w1).
      destruct (post_to_channel rc event formatted posted w1)
        as [[r2 w2] t2].
      destruct S as [P2 S2]. unfold Bot.value, Bot.effects in P2, S2.
      cbn [fst snd] in P2, S2.
      destruct r2 as [posted2 | e].
      * specialize (IH posted2 w2).
        destruct (deliver_each rc rest posted2 w2) as [[r3 w3] t3].
        destruct IH as [P3 S3].
        unfold delivery_ok, Bot.value, Bot.effects in *.
        cbv beta iota. cbn [fst snd] in *.
        destruct (S2 posted2 eq_refl) as (U2 & new2 & -> & F2).
        split.
        { now rewrite !posts_app, P1, P2, P3. }
        intros ids H. destruct (S3 ids H) as (U3 & new3 & -> & F3).
        split.
        { now rewrite !undelivered_app, U1, U2, U3. }
        exists (new2 ++ new3). split; [now rewrite app_assoc | ].
        rewrite !delivered_app, D1. cbn [app].
        now apply Forall2_app.
      * unfold delivery_ok, Bot.value, Bot.effects. cbv beta iota.
        cbn [fst snd].
        split; [now rewrite posts_app, P1, P2 | ].
        intros ids H. discriminate H.
    + unfold delivery_ok, Bot.value, Bot.effects. cbn [fst snd].
      split; [exact P1 | ]. intros ids H. discriminate H.
Qed.

End Cycle.

Lemma Forall2_in_right {A B} (R : A -> B -> Prop) (l : list A) (l' : list B)
  (y : B) :
  Forall2 R l l' -> In y l' -> exists x, In x l /\ R x y.
Proof.
  induction 1 as [ | x y' l l' Rxy _ IH]; cbn; [contradiction | ].
  intros [-> | H].
  - exists x. split; [now left | assumption].
  - destruct (IH H) as (x' & I & Rx). exists x'. split; [now right | assumption].
Qed.

Lemma follow_no_acks (seen : list pyval) (t : list effect) :
  Trace.acks t = [] -> acks_follow_deliveries seen t.
Proof.
  revert seen. induction t as [ | e t IH]; intros seen; cbn; trivial.
  destruct e as [body | | event m [] | ]; auto.
  destruct (Trace.is_ack body); [discriminate | ].
  intros H. split; [discriminate | now apply IH].
Qed.

Lemma follow_app (seen : list pyval) (a b : list effect) :
  acks_follow_deliveries seen a ->
  acks_follow_deliveries (rev (Trace.delivered a) ++ seen) b ->
  acks_follow_deliveries seen (a ++ b).
Proof.
  revert seen. induction a as [ | e a IH]; intros seen; cbn; trivial.
  destruct e as [body | | event m [] | ]; cbn; auto.
  - intros [H A] B. split; auto.
  - intros A B. apply IH; trivial. now rewrite <- app_assoc in B.
Qed.

(** An acknowledgment found in a trace that follows its deliveries names
    only events delivered before it. *)
Lemma follow_split (seen : list pyval) (t1 t2 : list effect) (body : dict) :
  acks_follow_deliveries seen (t1 ++ EPost body :: t2) ->
  Trace.is_ack body = true ->
  forall id, In id (Trace.batch body) ->
    exists event,
      In event (rev (Trace.delivered t1) ++ seen) /\ Trace.has_id event id.
Proof.
  revert seen. induction t1 as [ | e t1 IH]; intros seen; cbn.
  - intros [H _] A id I. exact (H A id I).
  - destruct e as [b | | event m [] | ]; cbn; try (now apply IH).
    + intros [_ F]. now apply IH.
    + intros F A id I. destruct (IH _ F A id I) as (ev & J & K).
      exists ev. split; [ | assumption]. now rewrite <- app_assoc.
Qed.

Section CycleShape.
Context {rt : PyRuntime} {World : Type} {sv : Services World}.

Lemma cycle_shape_intro (pre del tail : list effect) :
  Trace.acks pre = [] -> Trace.delivered pre = [] ->
  Trace.undelivered pre = [] -> Trace.posts del = [] ->
  Forall Trace.internal tail ->
  cycle_shape (pre ++ del ++ tail).
Proof.
  intros. exists pre, del, tail. repeat split; trivial. now left.
Qed.

(** Logging after the cycle keeps its shape. *)
Lemma cycle_shape_logged (t logs : list effect) :
  cycle_shape t -> Forall Trace.internal logs -> cycle_shape (t ++ logs).
Proof.
  intros (pre & del & tail & -> & A & D & U & P & T) L.
  exists pre, del, (tail ++ logs). rewrite <- !app_assoc.
  repeat split; trivial.
  destruct T as [T | (ids & l & -> & N & I & F & U')].
  - left. now apply Forall_app.
  - right. exists ids, (l ++ logs). repeat split; trivial.
    now apply Forall_app.
Qed.

Lemma poll_cycle_body_shape (rc : bool) (w : World) :
  cycle_shape (Bot.effects (poll_cycle_body rc w)).
Proof.
  unfold poll_cycle_body. unfold Bot.bind at 1.
  destruct (call_vps_api_shape (u "get_events") None w)
    as (v & w1 & logs & E & I).
  rewrite E. clear E.
  apply internal_quiet in I. destruct I as (_ & A0 & D0 & U0).
  assert (A : Trace.acks (EPost (request_body (u "get_events") None) :: logs)
              = []).
  { cbn [Trace.acks]. now rewrite fetch_is_no_ack. }
  assert (D : Trace.delivered
                (EPost (request_body (u "get_events") None) :: logs) = [])
    by exact D0.
  assert (U : Trace.undelivered
                (EPost (request_body (u "get_events") None) :: logs) = [])
    by exact U0.
  remember (EPost (request_body (u "get_events") None) :: logs) as pre
    eqn:Epre.
  clear Epre A0 D0 U0.
  assert (Z0 : forall (r : result unit) (w' : World),
             cycle_shape (Bot.effects (r, w', pre ++ @nil effect))).
  { intros r w'. apply (cycle_shape_intro pre [] []); auto. }
  cbv beta iota.
  unfold Bot.bind at 1. unfold Bot.lift at 1.
  destruct (has_events v) as [[ | ] | e]; cbv beta iota zeta;
    try apply Z0.
  unfold Bot.bind at 1. unfold Bot.lift at 1.
  destruct (Py.index v (u "data")) as [data | e]; cbv beta iota zeta;
    try apply Z0.
  unfold Bot.bind at 1. unfold Bot.lift at 1.
  destruct (Py.iter data) as [events | e]; cbv beta iota zeta;
    try apply Z0.
  unfold Bot.bind at 1.
  assert (S := deliver_each_spec rc events [] w1).
  destruct (deliver_each rc events [] w1) as [[r3 w3] del].
  destruct S as [P S]. unfold Bot.value, Bot.effects in P, S.
  cbn [fst snd] in P, S.
  destruct r3 as [[ | id ids] | e]; cbv beta iota zeta.
  - unfold Bot.ret, Bot.effects. cbn [snd app].
    apply cycle_shape_intro; auto.
  - destruct (S _ eq_refl) as (Ud & new & N & F).
    cbn [app] in N. subst new.
    unfold Bot.bind.
    destruct (call_vps_api_shape (u "mark_events_posted")
                (Some [(u "eventIds", PList (id :: ids))]) w3)
      as (v2 & w4 & logs2 & -> & I2).
    unfold log_info, Bot.emit, Bot.effects. cbv beta iota zeta.
    cbn [snd app].
    set (marked := ELog Info _ None).
    exists pre, del, (EPost (request_body (u "mark_events_posted")
                               (Some [(u "eventIds", PList (id :: ids))]))
                      :: logs2 ++ [marked]).
    repeat split; trivial.
    right. exists (id :: ids), (logs2 ++ [marked]).
    repeat split; trivial.
    + discriminate.
    + apply Forall_app. split; [assumption | repeat constructor].
  - unfold Bot.effects. cbn [snd app]. rewrite <- (app_nil_r del).
    apply cycle_shape_intro; auto.
Qed.

Lemma poll_cycle_shape (rc : bool) (w : World) :
  cycle_shape (Bot.effects (poll_cycle rc w)).
Proof.
  unfold poll_cycle, Bot.try.
  assert (S := poll_cycle_body_shape rc w).
  destruct (poll_cycle_body rc w) as [[[[] | e] w1] t]; trivial.
  unfold log_error, Bot.emit, Bot.effects in *. cbn [snd] in *.
  apply cycle_shape_logged; trivial. repeat constructor.
Qed.

End CycleShape.

(** ** The polling cycle *)

(** In every polling cycle an acknowledgment, when one is sent, is the only
    one, and its batch is non-empty and holds exactly the ids of the events
    delivered in that cycle, in order, none of whose deliveries failed; a
    delivery that fails is not set aside: it ends the cycle, and then no
    acknowledgment is sent at all. *)
Lemma acks_are_the_delivered_ids {rt : PyRuntime} {World : Type}
  {sv : Services World} (report_channel : bool) (w : World) :
  let t := Bot.effects (poll_cycle report_channel w) in
  (Trace.acks t = []
   \/ exists ids,
        Trace.acks t = [ids] /\ ids <> []
        /\ Forall2 Trace.has_id (Trace.delivered t) ids
        /\ Trace.undelivered t = [])
  /\ (Trace.undelivered t <> [] -> Trace.acks t = []).
Proof.
  cbv zeta.
  destruct (poll_cycle_shape report_channel w)
    as (pre & del & tail & -> & A & D & U & P & T).
  rewrite !acks_app, !delivered_app, !undelivered_app, A, D, U.
  rewrite (no_posts_no_acks del P). cbn [app].
  destruct T as [T | (ids & logs & -> & N & I & F & Ud)].
  - apply internal_quiet in T. destruct T as (_ & At & _ & _).
    rewrite At, ?app_nil_r. split; [now left | trivial].
  - apply internal_quiet in I. destruct I as (_ & Al & Dl & Ul).
    destruct (ack_body ids) as [K B].
    cbn [Trace.acks Trace.delivered Trace.undelivered].
    rewrite K, B, Al, Dl, Ul, Ud, ?app_nil_r.
    split; [ | congruence].
    right. exists ids. repeat split; trivial.
Qed.

(** Where C1 as stated fails: the BUY event is delivered, the delivery of
    the SELL event fails, and the cycle sends no acknowledgment, so the id
    of the delivered event is in no batch. *)
Lemma no_ack_after_a_failed_delivery :
  Trace.delivered
    (Bot.effects (poll_cycle (rt := sample_runtime) true second_send_fails))
  = [buy_event]
  /\ Trace.undelivered
       (Bot.effects (poll_cycle (rt := sample_runtime) true second_send_fails))
     = [sell_event]
  /\ Trace.acks
       (Bot.effects (poll_cycle (rt := sample_runtime) true second_send_fails))
     = []
  /\ ~ (exists ids,
          In ids (Trace.acks
                    (Bot.effects
                       (poll_cycle (rt := sample_runtime) true
                          second_send_fails)))
          /\ In (PInt 2) ids).
Proof.
  assert (A : Trace.acks
                (Bot.effects
                   (poll_cycle (rt := sample_runtime) true second_send_fails))
              = []) by (vm_compute; reflexivity).
  repeat split; try (vm_compute; reflexivity).
  rewrite A. intros (ids & [] & _).
Qed.

(** With a sink that accepts both messages the same cycle acknowledges both
    ids, in the order of delivery. *)
Lemma both_delivered_both_acknowledged :
  Trace.delivered
    (Bot.effects (poll_cycle (rt := sample_runtime) true both_sent))
  = [buy_event; sell_event]
  /\ Trace.acks
       (Bot.effects (poll_cycle (rt := sample_runtime) true both_sent))
     = [[PInt 2; PInt 1]].
Proof. split; vm_compute; reflexivity. Qed.

(** The trace of a cycle follows its deliveries. *)
Lemma poll_cycle_follows {rt : PyRuntime} {World : Type}
  {sv : Services World} (report_channel : bool) (w : World) :
  acks_follow_deliveries [] (Bot.effects (poll_cycle report_channel w)).
Proof.
  destruct (poll_cycle_shape report_channel w)
    as (pre & del & tail & -> & A & D & U & P & T).
  apply follow_app; [now apply follow_no_acks | ].
  apply follow_app; [now apply follow_no_acks, no_posts_no_acks | ].
  destruct T as [T | (ids & logs & -> & N & I & F & Ud)].
  - apply follow_no_acks. now apply internal_quiet in T.
  - cbn [acks_follow_deliveries]. split.
    + destruct (ack_body ids) as [_ B]. rewrite B. intros _ id J.
      destruct (Forall2_in_right _ _ _ id F J) as (event & K & H).
      exists event. split; [ | assumption].
      apply in_or_app. left. now apply in_rev in K.
    + apply follow_no_acks. now apply internal_quiet in I.
Qed.

(** C5 (acknowledgment soundness): wherever a polling cycle sends an
    acknowledgment, every id of its batch is the id of an event whose
    message the sink accepted earlier in that cycle. *)
Theorem ack_soundness {rt : PyRuntime} {World : Type} {sv : Services World}
  (report_channel : bool) (w : World) (t1 t2 : list effect) (body : dict) :
  Bot.effects (poll_cycle report_channel w) = t1 ++ EPost body :: t2 ->
  Trace.is_ack body = true ->
  forall id, In id (Trace.batch body) ->
    exists event message,
      In (ESend event message true) t1 /\ Trace.has_id event id.
Proof.
  intros E A id I.
  assert (F := poll_cycle_follows report_channel w). rewrite E in F.
  destruct (follow_split [] t1 t2 body F A id I) as (event & J & H).
  rewrite app_nil_r in J. apply in_rev in J.
  destruct (delivered_sent event t1 J) as [message K].
  exists event, message. split; assumption.
Qed.

Lemma ack_soundness_witness :
  exists event message,
    In (ESend event message true)
       (firstn 9
          (Bot.effects (poll_cycle (rt := sample_runtime) true both_sent)))
    /\ Trace.has_id event (PInt 2).
Proof.
  apply (ack_soundness (rt := sample_runtime) true both_sent
           (firstn 9
              (Bot.effects
                 (poll_cycle (rt := sample_runtime) true both_sent)))
           (skipn 10
              (Bot.effects
                 (poll_cycle (rt := sample_runtime) true both_sent)))
           (request_body (u "mark_events_posted")
              (Some [(u "eventIds", PList [PInt 2; PInt 1])]))).
  - vm_compute. reflexivity.
  - vm_compute. reflexivity.
  - vm_compute. left. reflexivity.
Defined.

(** ** The query responder *)

(** C2 (the responder is never silent), where the code departs from it:
    whenever the portfolio fetch yields [None] and the generative backend
    yields no text, [handle_user_query] returns no reply: it raises (the
    raw-data fallback calls [portfolio.get] on [None]). *)
Theorem query_raises_without_portfolio {rt : PyRuntime} {World : Type}
  {sv : Services World} (question : str) (w : World) :
  Bot.value (call_vps_api (u "get_portfolio_summary") None w) = Ok PNone ->
  (forall prompt w', no_text (Bot.value (call_ollama prompt 400 w'))) ->
  exists e, Bot.value (handle_user_query question w) = Raise e.
Proof.
  intros P G. unfold handle_user_query. unfold Bot.bind at 1.
  destruct (call_vps_api (u "get_portfolio_summary") None w)
    as [[r1 w1] t1].
  unfold Bot.value in P. cbn [fst] in P. subst r1.
  unfold Bot.bind at 1.
  destruct (call_vps_api_shape (u "get_positions") None w1)
    as (positions & w2 & l2 & -> & _).
  unfold Bot.bind at 1.
  destruct (call_vps_api_shape (u "get_decisions")
              (Some [(u "limit", PInt 5)]) w2)
    as (decisions & w3 & l3 & -> & _).
  unfold Bot.bind at 1. unfold Bot.lift at 1.
  destruct (query_context PNone positions decisions) as [context | e].
  - unfold Bot.bind at 1.
    match goal with
    | |- context [call_ollama ?p 400 w3] =>
      specialize (G p w3); destruct (call_ollama p 400 w3) as [[r w4] t4]
    end.
    unfold Bot.value in G. cbn [fst] in G.
    exists AttributeError. destruct G as [-> | ->]; reflexivity.
  - exists e. reflexivity.
Qed.

Lemma query_raises_without_portfolio_witness :
  exists e,
    Bot.value (handle_user_query (rt := sample_runtime) (sv := unreachable)
                 (u "How is my portfolio?") tt) = Raise e.
Proof.
  apply (query_raises_without_portfolio (rt := sample_runtime)
           (sv := unreachable) (u "How is my portfolio?") tt).
  - vm_compute. reflexivity.
  - intros prompt w'. left. reflexivity.
Defined.

(** The same on two scripted worlds, for every question: with every service
    down, and with only the portfolio fetch failing, the exception is the
    [AttributeError] of the final fallback. *)
Lemma query_raises_attribute_error {rt : PyRuntime} (question : str) :
  Bot.value (handle_user_query question all_down) = Raise AttributeError
  /\ Bot.value (handle_user_query question portfolio_down)
     = Raise AttributeError.
Proof. split; vm_compute; reflexivity. Qed.

(** ** Further properties of the pipeline and of the cycle *)

Lemma Ok_inj {A} (a b : A) : Ok a = Ok b -> a = b.
Proof. congruence. Qed.

(** One field read of a template: it raises, or the reading goes on. *)
Ltac template_step :=
  match goal with
  | |- context [rbind ?r _] =>
    destruct r; cbn [rbind]; [ | intros; discriminate ]
  end.

(** Whatever text a template returns starts with its emoji. *)
Lemma templates_nonempty {rt : PyRuntime} (s : str) (sym meta : pyval) :
  match assoc s (templates sym meta) with
  | Some f => forall out, f = Ok out -> out <> []
  | None => True
  end.
Proof.
  unfold templates. cbn [assoc].
  repeat (table_entry s;
          [ cbv beta iota; repeat template_step;
            intros out H; apply Ok_inj in H; subst out; nonempty_literal | ]).
  trivial.
Qed.

(** The deterministic formatter never returns an empty string. *)
Lemma fallback_nonempty {rt : PyRuntime} (event : pyval) (out : str) :
  format_event_fallback event = Ok out -> out <> [].
Proof.
  unfold format_event_fallback.
  destruct event as [ | | | | | | d]; try discriminate.
  rewrite !get_dict. cbn [rbind].
  set (et := lookup d "event_type" (PStr (u "UNKNOWN"))).
  set (sym := lookup d "symbol" (PStr [])).
  set (meta := fallback_meta (lookup d "metadata" PNone)).
  assert (D : default_template et sym meta = Ok out -> out <> []).
  { unfold default_template. intros H. apply Ok_inj in H. subst out.
    nonempty_literal. }
  destruct et as [ | b | n | x | s | l | l]; cbn [table_get rbind];
    trivial; try discriminate.
  assert (T := templates_nonempty s sym meta).
  destruct (assoc s (templates sym meta)) as [f | ]; [apply T | exact D].
Qed.

(** The event path of the pipeline never returns an empty string: the
    generative branch returns the first 500 characters of a non-empty text,
    the fallback branch a text that starts with an emoji. *)
Lemma event_message_nonempty {rt : PyRuntime} {World : Type}
  {sv : Services World} (event : pyval) (w : World) (out : str) :
  Bot.value (format_event_with_ollama event w) = Ok out -> out <> [].
Proof.
  unfold format_event_with_ollama, Bot.bind, Bot.lift.
  destruct (event_prompt event) as [prompt | e]; [ | discriminate].
  destruct (call_ollama prompt 200 w) as [[[[[ | c text] | ] | e] w1] t1];
    unfold Bot.value, Bot.ret; cbn [fst]; try discriminate;
    try (now apply fallback_nonempty).
  intros H. apply Ok_inj in H. subst out. discriminate.
Qed.

Lemma event_message_nonempty_witness :
  Bot.value (format_event_with_ollama (rt := sample_runtime) sell_event
               all_down)
  = Ok (u "🔴 **SELL** BTC @ $65000 | P&L: $120.5 (1.8%)")
  /\ u "🔴 **SELL** BTC @ $65000 | P&L: $120.5 (1.8%)" <> [].
Proof.
  assert (E : Bot.value (format_event_with_ollama (rt := sample_runtime)
                           sell_event all_down)
              = Ok (u "🔴 **SELL** BTC @ $65000 | P&L: $120.5 (1.8%)"))
    by (vm_compute; reflexivity).
  split; [exact E | ].
  exact (event_message_nonempty (rt := sample_runtime) sell_event all_down
           _ E).
Defined.

Lemma generative_branch_bounded_witness :
  exists out,
    Bot.value (format_event_with_ollama (rt := sample_runtime) sell_event
                 chatty) = Ok out
    /\ out = slice_to 500 (u "Sold BTC at $65000, +1.8%")
    /\ out <> []
    /\ (List.length out <= 500)%nat.
Proof.
  destruct (event_prompt (rt := sample_runtime) sell_event) as [prompt | e]
    eqn:P; [ | vm_compute in P; discriminate P ].
  apply (generative_branch_bounded (rt := sample_runtime) sell_event chatty
           prompt (u "Sold BTC at $65000, +1.8%") P).
  - reflexivity.
  - vm_compute. discriminate.
Defined.

(** A reply of the query responder, when there is one, is non-empty and at
    most 1900 characters long, on the generative branch and on the raw-data
    branch alike. *)
Lemma query_reply_bounded {rt : PyRuntime} {World : Type}
  {sv : Services World} (question : str) (w : World) (out : str) :
  Bot.value (handle_user_query question w) = Ok out ->
  out <> [] /\ (List.length out <= 1900)%nat.
Proof.
  unfold handle_user_query. unfold Bot.bind at 1.
  destruct (call_vps_api_shape (u "get_portfolio_summary") None w)
    as (portfolio & w1 & l1 & -> & _).
  unfold Bot.bind at 1.
  destruct (call_vps_api_shape (u "get_positions") None w1)
    as (positions & w2 & l2 & -> & _).
  unfold Bot.bind at 1.
  destruct (call_vps_api_shape (u "get_decisions")
              (Some [(u "limit", PInt 5)]) w2)
    as (decisions & w3 & l3 & -> & _).
  unfold Bot.bind at 1. unfold Bot.lift at 1.
  destruct (query_context portfolio positions decisions) as [context | e];
    [ | discriminate ].
  unfold Bot.bind at 1.
  match goal with
  | |- context [call_ollama ?p 400 w3] =>
    destruct (call_ollama p 400 w3) as [[[[[ | c text] | ] | e] w4] t4]
  end;
    unfold Bot.value, Bot.bind, Bot.lift, Bot.ret; cbv beta iota;
    try discriminate.
  1, 3: destruct (Py.get portfolio (u "data") (PDict [])) as [data | e];
    cbn [fst]; [ | discriminate ];
    intros H; apply Ok_inj in H; subst out;
    (split; [ nonempty_literal | ]);
    rewrite !length_app; unfold slice_to; rewrite length_firstn;
    change (List.length (u "**Portfolio:**")) with 14%nat;
    change (List.length nl) with 1%nat;
    change (List.length backticks) with 3%nat;
    change (List.length (u "json")) with 4%nat; lia.
  cbn [fst]. intros H. apply Ok_inj in H. subst out.
  split; [discriminate | ]. unfold slice_to. rewrite length_firstn. lia.
Qed.

Lemma query_reply_bounded_witness :
  u "All quiet." <> [] /\ (List.length (u "All quiet.") <= 1900)%nat.
Proof.
  apply (query_reply_bounded (rt := sample_runtime)
           (u "How is my portfolio?") chatty_query).
  vm_compute. reflexivity.
Defined.

(** A fetch that fails or brings no events ends the cycle at once: nothing
    is formatted, nothing is delivered, and no acknowledgment is sent. *)
Lemma empty_fetch_is_quiet {rt : PyRuntime} {World : Type}
  {sv : Services World} (report_channel : bool) (w : World) (fetched : pyval) :
  Bot.value (call_vps_api (u "get_events") None w) = Ok fetched ->
  has_events fetched = Ok false ->
  Bot.effects (poll_cycle report_channel w)
  = Bot.effects (call_vps_api (u "get_events") None w)
  /\ Trace.posts (Bot.effects (poll_cycle report_channel w))
     = [request_body (u "get_events") None]
  /\ Trace.acks (Bot.effects (poll_cycle report_channel w)) = []
  /\ Trace.delivered (Bot.effects (poll_cycle report_channel w)) = []
  /\ Trace.undelivered (Bot.effects (poll_cycle report_channel w)) = [].
Proof.
  intros V H.
  assert (E : Bot.effects (poll_cycle report_channel w)
              = Bot.effects (call_vps_api (u "get_events") None w)).
  { unfold poll_cycle, Bot.try, poll_cycle_body. unfold Bot.bind at 1.
    destruct (call_vps_api (u "get_events") None w) as [[r w1] t1].
    unfold Bot.value in V. cbn [fst] in V. subst r.
    unfold Bot.bind, Bot.lift, Bot.ret, Bot.effects. rewrite H.
    cbn [snd app]. now rewrite !app_nil_r. }
  rewrite E. split; [reflexivity | ].
  destruct (call_vps_api_shape (u "get_events") None w)
    as (v & w1 & logs & -> & I).
  apply internal_quiet in I. destruct I as (P & A & D & U).
  unfold Bot.effects. cbn [snd Trace.posts Trace.acks Trace.delivered
                             Trace.undelivered].
  rewrite fetch_is_no_ack, P, A, D, U. repeat split.
Qed.

Lemma empty_fetch_is_quiet_witness :
  Trace.acks (Bot.effects (poll_cycle (rt := sample_runtime) true no_events))
  = []
  /\ Trace.delivered
       (Bot.effects (poll_cycle (rt := sample_runtime) true no_events))
     = [].
Proof.
  destruct (empty_fetch_is_quiet (rt := sample_runtime) true no_events
              (PDict [ (u "data", PList []) ]))
    as (_ & _ & A & D & _).
  - vm_compute. reflexivity.
  - vm_compute. reflexivity.
  - split; assumption.
Defined.

(** On the same event the generative tier can answer differently in two
    worlds; the deterministic tier cannot. *)
Lemma generative_tier_depends_on_world :
  Bot.value (format_event_with_ollama (rt := sample_runtime) sell_event chatty)
  <> Bot.value (format_event_with_ollama (rt := sample_runtime) sell_event
                  all_down).
Proof. vm_compute. discriminate. Qed.

(** The generative formatter never raises.  It makes one call to the
    backend and returns the text of the answer, stripped, when the call
    succeeds and the answer carries a text at [message], [content]; it
    returns [None] when the call fails and when the answer carries no such
    text.  It sends no request to the engine and no message to the sink,
    and leaves the world as the call to the backend left it. *)
Lemma call_ollama_total {World : Type} {sv : Services World}
  (prompt : str) (max_tokens : Z) (w : World) :
  let out := call_ollama prompt max_tokens w in
  (forall resp text,
     fst (ol_chat prompt max_tokens w) = Ok resp ->
     chat_content resp text ->
     Bot.value out = Ok (Some (strip text)))
  /\ (forall resp,
        fst (ol_chat prompt max_tokens w) = Ok resp ->
        (forall text, ~ chat_content resp text) ->
        Bot.value out = Ok None)
  /\ (forall e,
        fst (ol_chat prompt max_tokens w) = Raise e ->
        Bot.value out = Ok None)
  /\ (exists r, Bot.value out = Ok r)
  /\ Bot.final out = snd (ol_chat prompt max_tokens w)
  /\ Trace.chats (Bot.effects out) = [(prompt, max_tokens)]
  /\ Trace.posts (Bot.effects out) = []
  /\ Trace.delivered (Bot.effects out) = []
  /\ Trace.undelivered (Bot.effects out) = [].
Proof.
  cbv zeta.
  unfold call_ollama, Bot.try, Bot.bind, chat, Bot.lift, log_error,
    Bot.emit, Bot.ret, Bot.value, Bot.effects, Bot.final, chat_content.
  destruct (ol_chat prompt max_tokens w) as [[resp | e] w1]; cbn [fst snd].
  - destruct (Py.index resp (u "message")) as [message | e] eqn:M.
    + destruct (Py.index message (u "content")) as [content | e] eqn:K.
      * destruct content as [ | | | | s | | ];
          cbn [fst snd app Trace.chats Trace.posts Trace.delivered
               Trace.undelivered];
          (split; [ intros r text R (m & Hm & Hk);
                    apply Ok_inj in R; subst r; congruence | ]);
          (split; [ intros r R N; apply Ok_inj in R; subst r;
                    try reflexivity;
                    destruct (N s); exists message; now split | ]);
          (split; [ intros e' R; discriminate R | ]);
          repeat split; eauto.
      * cbn [fst snd app Trace.chats Trace.posts Trace.delivered
             Trace.undelivered].
        split; [ intros r text R (m & Hm & Hk);
                 apply Ok_inj in R; subst r; congruence | ].
        repeat split; eauto; intros; discriminate.
    + cbn [fst snd app Trace.chats Trace.posts Trace.delivered
           Trace.undelivered].
      split; [ intros r text R (m & Hm & Hk);
               apply Ok_inj in R; subst r; congruence | ].
      repeat split; eauto; intros; discriminate.
  - cbn [fst snd app Trace.chats Trace.posts Trace.delivered
         Trace.undelivered].
    split; [ intros r text R; discriminate R | ].
    split; [ intros r R; discriminate R | ].
    repeat split; eauto.
Qed.

(** On a backend that answers, and on one that is down. *)
Lemma call_ollama_total_witness :
  Bot.value (call_ollama (u "Format this event") 200 chatty)
  = Ok (Some (u "Sold BTC at $65000, +1.8%"))
  /\ Bot.value (call_ollama (u "Format this event") 200 all_down) = Ok None.
Proof.
  pose proof (call_ollama_total (u "Format this event") 200 chatty) as T.
  pose proof (call_ollama_total (u "Format this event") 200 all_down) as D.
  cbv zeta in T, D. destruct T as (T & _), D as (_ & _ & D & _).
  split.
  - apply (T (PDict [ (u "message",
                       PDict [ (u "content",
                                PStr (u "  Sold BTC at $65000, +1.8%  ")) ]) ])
             (u "  Sold BTC at $65000, +1.8%  ")).
    + reflexivity.
    + eexists. split; vm_compute; reflexivity.
  - apply (D ExternalError). reflexivity.
Defined.

(** ** Calls to the backend in a trace *)

Section Chats.
Context {World : Type} {sv : Services World}.

Lemma call_ollama_chats (prompt : str) (max_tokens : Z) (w : World) :
  Trace.chats (Bot.effects (call_ollama prompt max_tokens w))
  = [(prompt, max_tokens)].
Proof.
  unfold call_ollama, Bot.try, Bot.bind, chat, Bot.lift, log_error,
    Bot.emit, Bot.ret, Bot.effects.
  destruct (ol_chat prompt max_tokens w) as [[resp | e] w1];
    [ destruct (Py.index resp (u "message")) as [message | e];
      [ destruct (Py.index message (u "content")) as [content | e];
        [ destruct content | ] | ] | ];
    reflexivity.
Qed.

Lemma chats_app (a b : list effect) :
  Trace.chats (a ++ b) = Trace.chats a ++ Trace.chats b.
Proof.
  induction a as [ | [] a IH]; cbn; rewrite ?IH; reflexivity.
Qed.

Lemma call_vps_api_chats (action : str) (extra_data : option dict) (w : World) :
  Trace.chats (Bot.effects (call_vps_api action extra_data w)) = [].
Proof.
  unfold call_vps_api, Bot.try, Bot.bind, post, Bot.lift, log_error,
    Bot.emit, Bot.ret, Bot.effects.
  destruct (requests_post (request_body action extra_data) w)
    as [[resp | e] w1]; trivial.
  destruct (status_code resp =? 200); trivial.
  destruct (json resp); reflexivity.
Qed.

End Chats.

(** ** The polling loop *)

Section Loop.
Context {rt : PyRuntime} {World : Type} {sv : Services World}.

(** Without a report channel the loop sends nothing and collects no id;
    with one, what it delivered and what it failed to deliver are, in this
    order, the first events of the list, and at most one delivery failed. *)
Lemma post_to_channel_order (rc : bool) (event : pyval) (formatted : str)
  (posted : list pyval) (w : World) :
  let out := post_to_channel rc event formatted posted w in
  (rc = false ->
   Bot.effects out = [] /\ Bot.value out = Ok posted)
  /\ (rc = true ->
      (Trace.delivered (Bot.effects out) = [event]
       /\ Trace.undelivered (Bot.effects out) = [])
      \/ (Trace.delivered (Bot.effects out) = []
          /\ Trace.undelivered (Bot.effects out) = [event]
          /\ exists e, Bot.value out = Raise e)).
Proof.
  cbv zeta. unfold post_to_channel. destruct rc.
  - split; [discriminate | ]. intros _.
    unfold Bot.bind, send, Bot.lift, log_info, Bot.emit, Bot.ret,
      Bot.value, Bot.effects.
    destruct (channel_send formatted w) as [[[] | e] w1].
    + left.
      destruct (Py.index event (u "id")) as [id | e];
        [ destruct (Py.get event (u "event_type") PNone) as [et | e'] | ];
        cbn [fst snd app Trace.delivered Trace.undelivered]; now split.
    + right. cbn [fst snd app Trace.delivered Trace.undelivered].
      repeat split. now exists e.
  - split; [ | discriminate]. intros _. now split.
Qed.

Lemma deliver_each_no_channel (events : list pyval) :
  forall (posted : list pyval) (w : World),
    Trace.delivered (Bot.effects (deliver_each false events posted w)) = []
    /\ Trace.undelivered (Bot.effects (deliver_each false events posted w))
       = []
    /\ forall ids, Bot.value (deliver_each false events posted w) = Ok ids ->
                   ids = posted.
Proof.
  induction events as [ | event rest IH]; intros posted w.
  - cbn [deliver_each]. unfold Bot.ret, Bot.value, Bot.effects.
    cbn [fst snd]. repeat split. congruence.
  - destruct (deliver_each false (event :: rest) posted w) as [[r w'] t]
      eqn:E.
    cbn [deliver_each] in E. unfold Bot.bind at 1 in E.
    destruct (format_event_shape event w) as (r1 & w1 & t1 & F & I).
    rewrite F in E.
    apply internal_quiet in I. destruct I as (_ & _ & D1 & U1).
    destruct r1 as [formatted | e].
    + unfold Bot.bind, post_to_channel, Bot.ret in E. cbv beta iota in E.
      specialize (IH posted w1).
      destruct (deliver_each false rest posted w1) as [[r3 w3] t3].
      cbn [app] in E. injection E as <- <- <-.
      unfold Bot.value, Bot.effects in *. cbn [fst snd] in *.
      destruct IH as (D3 & U3 & V3).
      rewrite delivered_app, undelivered_app, D1, U1, D3, U3.
      repeat split. exact V3.
    + injection E as <- <- <-.
      unfold Bot.value, Bot.effects. cbn [fst snd].
      repeat split; trivial. discriminate.
Qed.

(** The events are taken in the order of the list: those delivered come
    first, then the one whose delivery failed, if any; the loop stops
    there.  When the loop goes through with a report channel, every event
    was delivered. *)
Lemma deliver_each_order (events : list pyval) :
  forall (posted : list pyval) (w : World),
    (exists rest,
       events
       = Trace.delivered (Bot.effects (deliver_each true events posted w))
         ++ Trace.undelivered
              (Bot.effects (deliver_each true events posted w))
         ++ rest)
    /\ (List.length
          (Trace.undelivered
             (Bot.effects (deliver_each true events posted w))) <= 1)%nat
    /\ (forall ids,
          Bot.value (deliver_each true events posted w) = Ok ids ->
          Trace.delivered (Bot.effects (deliver_each true events posted w))
          = events).
Proof.
  induction events as [ | event rest IH]; intros posted w.
  - cbn [deliver_each]. unfold Bot.ret, Bot.value, Bot.effects.
    cbn [fst snd]. repeat split; [now exists [] | cbn; lia].
  - destruct (deliver_each true (event :: rest) posted w) as [[r w'] t]
      eqn:E.
    cbn [deliver_each] in E. unfold Bot.bind at 1 in E.
    destruct (format_event_shape event w) as (r1 & w1 & t1 & F & I).
    rewrite F in E.
    apply internal_quiet in I. destruct I as (_ & _ & D1 & U1).
    destruct r1 as [formatted | e].
    + unfold Bot.bind in E.
      destruct (post_to_channel_order true event formatted posted w1)
        as [_ S].
      specialize (S eq_refl).
      destruct (post_to_channel true event formatted posted w1)
        as [[r2 w2] t2].
      unfold Bot.value, Bot.effects in S. cbn [fst snd] in S.
      destruct r2 as [posted2 | e].
      * destruct S as [[D2 U2] | (_ & _ & e & X)]; [ | discriminate X].
        specialize (IH posted2 w2).
        destruct (deliver_each true rest posted2 w2) as [[r3 w3] t3].
        injection E as <- <- <-.
        unfold Bot.value, Bot.effects in *. cbn [fst snd] in *.
        destruct IH as ((rest' & R) & L & V).
        rewrite !delivered_app, !undelivered_app, D1, U1, D2, U2.
        cbn [app]. repeat split.
        -- exists rest'. now rewrite <- R.
        -- exact L.
        -- intros ids H. now rewrite (V ids H).
      * injection E as <- <- <-.
        unfold Bot.value, Bot.effects. cbn [fst snd].
        rewrite !delivered_app, !undelivered_app, D1, U1. cbn [app].
        destruct S as [[-> ->] | (-> & -> & _)]; cbn [app List.length];
          repeat split; try (now exists rest); try lia; discriminate.
    + injection E as <- <- <-.
      unfold Bot.value, Bot.effects. cbn [fst snd]. rewrite D1, U1.
      cbn [app List.length].
      repeat split; [now exists (event :: rest) | lia | discriminate].
Qed.

(** How a cycle runs: after the fetch, either the cycle stops there, or it
    goes through the events fetched and then acknowledges the ids
    collected, if there are any. *)
Lemma poll_cycle_body_cases (rc : bool) (w : World) :
  exists v w1 logs,
    call_vps_api (u "get_events") None w
    = (Ok v, w1, EPost fetch_request :: logs)
    /\ Forall Trace.internal logs
    /\ ((Bot.effects (poll_cycle_body rc w) = EPost fetch_request :: logs
         /\ forall events, ~ fetched v events)
        \/ exists events r w3 del,
             fetched v events
             /\ deliver_each rc events [] w1 = (r, w3, del)
             /\ ((exists id ids logs2,
                    r = Ok (id :: ids)
                    /\ Forall Trace.internal logs2
                    /\ Bot.effects (poll_cycle_body rc w)
                       = EPost fetch_request :: logs ++ del
                         ++ EPost (ack_request (id :: ids)) :: logs2)
                 \/ ((r = Ok [] \/ exists e, r = Raise e)
                     /\ Bot.effects (poll_cycle_body rc w)
                        = EPost fetch_request :: logs ++ del))).
Proof.
  destruct (call_vps_api_shape (u "get_events") None w)
    as (v & w1 & logs & E & I).
  exists v, w1, logs. split; [exact E | ]. split; [exact I | ].
  destruct (poll_cycle_body rc w) as [[r0 w0] t0] eqn:B.
  unfold Bot.effects. cbn [snd].
  unfold poll_cycle_body in B. unfold Bot.bind at 1 in B.
  rewrite E in B. cbv beta iota in B.
  unfold Bot.bind at 1 in B. unfold Bot.lift at 1 in B.
  destruct (has_events v) as [[ | ] | e] eqn:H; cbv beta iota zeta in B;
    try (injection B as <- <- <-; left; rewrite app_nil_r;
         split; [reflexivity | intros events [F _]; congruence]).
  unfold Bot.bind at 1 in B. unfold Bot.lift at 1 in B.
  destruct (Py.index v (u "data")) as [data | e] eqn:X;
    cbv beta iota zeta in B;
    try (injection B as <- <- <-; left; rewrite app_nil_r;
         split; [reflexivity
                | intros events (_ & data' & F & _); congruence]).
  unfold Bot.bind at 1 in B. unfold Bot.lift at 1 in B.
  destruct (Py.iter data) as [events | e] eqn:T; cbv beta iota zeta in B;
    try (injection B as <- <- <-; left; rewrite app_nil_r;
         split; [reflexivity
                | intros events (_ & data' & F & G); congruence]).
  right. unfold Bot.bind at 1 in B.
  destruct (deliver_each rc events [] w1) as [[r w3] del] eqn:R.
  exists events, r, w3, del.
  split; [split; [exact H | exists data; now split] | ].
  split; [exact R | ].
  destruct r as [[ | id ids] | e]; cbv beta iota zeta in B.
  - right. split; [now left | ].
    unfold Bot.ret in B. injection B as <- <- <-.
    cbn [app]. now rewrite app_nil_r.
  - left. unfold Bot.bind in B.
    destruct (call_vps_api_shape (u "mark_events_posted")
                (Some [(u "eventIds", PList (id :: ids))]) w3)
      as (v2 & w4 & logs2 & A & I2).
    rewrite A in B.
    unfold log_info, Bot.emit in B. cbv beta iota zeta in B.
    injection B as <- <- <-. cbn [app].
    eexists id, ids, (logs2 ++ [_]).
    split; [reflexivity | ].
    split; [ | reflexivity ].
    apply Forall_app. split; [assumption | repeat constructor].
  - right. split; [right; now exists e | ].
    injection B as <- <- <-. cbn [app]. reflexivity.
Qed.

(** The [except] at the cycle boundary only adds a log entry. *)
Lemma poll_cycle_effects (rc : bool) (w : World) :
  exists logs,
    Forall Trace.internal logs
    /\ Bot.effects (poll_cycle rc w)
       = Bot.effects (poll_cycle_body rc w) ++ logs.
Proof.
  unfold poll_cycle, Bot.try.
  destruct (poll_cycle_body rc w) as [[[[] | e] w1] t].
  - exists []. split; [constructor | ].
    unfold Bot.effects. cbn [snd]. now rewrite app_nil_r.
  - unfold log_error, Bot.emit, Bot.effects. cbn [snd].
    eexists [_]. split; [ | reflexivity ]. repeat constructor.
Qed.

(** No exception leaves a polling cycle: whatever fails inside it is caught
    at the cycle boundary and logged. *)
Lemma cycle_returns (report_channel : bool) (w : World) :
  Bot.value (poll_cycle report_channel w) = Ok tt.
Proof.
  unfold poll_cycle, Bot.try.
  destruct (poll_cycle_body report_channel w) as [[[[] | e] w1] t];
    reflexivity.
Qed.

Lemma cycle_posts (report_channel : bool) (w : World) :
  Trace.posts (Bot.effects (poll_cycle report_channel w)) = [fetch_request]
  \/ exists ids,
       ids <> []
       /\ Trace.posts (Bot.effects (poll_cycle report_channel w))
          = [fetch_request; ack_request ids].
Proof.
  destruct (poll_cycle_effects report_channel w) as (l & L & ->).
  apply internal_quiet in L. destruct L as (Pl & _).
  rewrite posts_app, Pl, app_nil_r.
  destruct (poll_cycle_body_cases report_channel w)
    as (v & w1 & logs & _ & I & C).
  apply internal_quiet in I. destruct I as (P & _).
  destruct C as [[-> _] | (events & r & w3 & del & _ & D & C)].
  - left. cbn [Trace.posts]. now rewrite P.
  - assert (S := deliver_each_spec report_channel events [] w1).
    rewrite D in S. destruct S as [Pd _].
    unfold Bot.effects in Pd. cbn [snd] in Pd.
    destruct C as [(id & ids & logs2 & _ & I2 & ->) | (_ & ->)].
    + right. exists (id :: ids). split; [discriminate | ].
      apply internal_quiet in I2. destruct I2 as (P2 & _).
      cbn [Trace.posts]. rewrite !posts_app, P, Pd. cbn [app Trace.posts].
      now rewrite P2.
    + left. cbn [Trace.posts]. now rewrite posts_app, P, Pd.
Qed.

(** A cycle sends at most two requests to the engine: the fetch first, and
    then at most one acknowledgment, of a non-empty batch. *)
Lemma poll_cycle_requests (report_channel : bool) (w : World) :
  Trace.posts (Bot.effects (poll_cycle report_channel w)) = [fetch_request]
  \/ exists ids,
       ids <> []
       /\ Trace.posts (Bot.effects (poll_cycle report_channel w))
          = [fetch_request; ack_request ids].
Proof. exact (cycle_posts report_channel w). Qed.

(** When the report channel was not found, a cycle delivers nothing and
    acknowledges nothing: it only fetches (and formats). *)
Lemma no_channel_no_delivery (w : World) :
  Trace.delivered (Bot.effects (poll_cycle false w)) = []
  /\ Trace.undelivered (Bot.effects (poll_cycle false w)) = []
  /\ Trace.acks (Bot.effects (poll_cycle false w)) = []
  /\ Trace.posts (Bot.effects (poll_cycle false w)) = [fetch_request].
Proof.
  destruct (poll_cycle_effects false w) as (l & L & ->).
  apply internal_quiet in L. destruct L as (Pl & Al & Dl & Ul).
  rewrite posts_app, acks_app, delivered_app, undelivered_app,
    Pl, Al, Dl, Ul, !app_nil_r.
  destruct (poll_cycle_body_cases false w) as (v & w1 & logs & _ & I & C).
  apply internal_quiet in I. destruct I as (P & A & D & U).
  assert (F : Trace.is_ack fetch_request = false) by exact fetch_is_no_ack.
  destruct C as [[-> _] | (events & r & w3 & del & _ & E & C)].
  - cbn [Trace.posts Trace.acks Trace.delivered Trace.undelivered].
    now rewrite F, P, A, D, U.
  - destruct (deliver_each_no_channel events [] w1) as (Dd & Ud & V).
    assert (S := deliver_each_spec false events [] w1).
    rewrite E in Dd, Ud, V, S. destruct S as [Pd _].
    unfold Bot.value, Bot.effects in Dd, Ud, V, Pd. cbn [fst snd] in *.
    destruct C as [(id & ids & logs2 & -> & _ & _) | (_ & ->)].
    + discriminate (V _ eq_refl).
    + cbn [Trace.posts Trace.acks Trace.delivered Trace.undelivered].
      rewrite posts_app, acks_app, delivered_app, undelivered_app.
      rewrite F, P, A, D, U, Dd, Ud, Pd, (no_posts_no_acks del Pd).
      now repeat split.
Qed.

(** Within a cycle the events are delivered in the order they were fetched:
    those delivered are the first events of the fetch, the one whose
    delivery failed (at most one) is the next, and nothing after it is
    sent. *)
Lemma delivery_in_fetch_order (w : World) (fetched_value : pyval)
  (events : list pyval) :
  Bot.value (call_vps_api (u "get_events") None w) = Ok fetched_value ->
  fetched fetched_value events ->
  (exists rest,
     events = Trace.delivered (Bot.effects (poll_cycle true w))
              ++ Trace.undelivered (Bot.effects (poll_cycle true w)) ++ rest)
  /\ (List.length (Trace.undelivered (Bot.effects (poll_cycle true w))) <= 1)%nat
  /\ (Trace.acks (Bot.effects (poll_cycle true w)) <> [] ->
      Trace.delivered (Bot.effects (poll_cycle true w)) = events).
Proof.
  intros V F.
  destruct (poll_cycle_effects true w) as (l & L & ->).
  apply internal_quiet in L. destruct L as (_ & Al & Dl & Ul).
  rewrite acks_app, delivered_app, undelivered_app, Al, Dl, Ul, !app_nil_r.
  destruct (poll_cycle_body_cases true w) as (v & w1 & logs & E & I & C).
  rewrite E in V. unfold Bot.value in V. cbn [fst] in V.
  apply Ok_inj in V. subst v.
  apply internal_quiet in I. destruct I as (P & A & D & U).
  assert (K : Trace.is_ack fetch_request = false) by exact fetch_is_no_ack.
  destruct C as [[_ N] | (events' & r & w3 & del & F' & R & C)];
    [ now destruct (N events) | ].
  assert (events' = events).
  { destruct F as (_ & d1 & X1 & T1), F' as (_ & d2 & X2 & T2). congruence. }
  subst events'.
  destruct (deliver_each_order events [] w1) as ((rest & O) & Len & Full).
  assert (S := deliver_each_spec true events [] w1). destruct S as [Pd _].
  rewrite R in O, Len, Full, Pd.
  unfold Bot.value, Bot.effects in O, Len, Full, Pd. cbn [fst snd] in *.
  destruct C as [(id & ids & logs2 & -> & I2 & ->) | (_ & ->)].
  - apply internal_quiet in I2. destruct I2 as (_ & A2 & D2 & U2).
    cbn [Trace.acks Trace.delivered Trace.undelivered].
    rewrite !acks_app, !delivered_app, !undelivered_app.
    cbn [Trace.acks Trace.delivered Trace.undelivered].
    rewrite D, U, D2, U2, !app_nil_r. cbn [app].
    repeat split; [now exists rest | exact Len | ].
    intros _. exact (Full _ eq_refl).
  - cbn [Trace.acks Trace.delivered Trace.undelivered].
    rewrite !acks_app, !delivered_app, !undelivered_app.
    rewrite K, A, D, U, (no_posts_no_acks del Pd). cbn [app].
    repeat split; [now exists rest | exact Len | ].
    intros N. now destruct N.
Qed.

(** A cycle sends at most one acknowledgment. *)
Lemma ack_batch_counts (report_channel : bool) (w : World) :
  (List.length (Trace.acks (Bot.effects (poll_cycle report_channel w))) <= 1)%nat.
Proof.
  destruct (poll_cycle_shape report_channel w)
    as (pre & del & tail & -> & A & _ & _ & P & T).
  rewrite !acks_app, A, (no_posts_no_acks del P). cbn [app].
  destruct T as [T | (ids & logs & -> & _ & I & _)].
  - apply internal_quiet in T. destruct T as (_ & -> & _). cbn. lia.
  - apply internal_quiet in I. destruct I as (_ & Al & _).
    destruct (ack_body ids) as [K _].
    cbn [Trace.acks]. rewrite K, Al. cbn. lia.
Qed.

(** The polling loop never raises, whatever happens in its cycles, and
    [cycles] cycles send between [cycles] and twice as many requests, of
    which at most [cycles] are acknowledgments. *)
Lemma poll_events_never_raises (report_channel : bool) (cycles : nat) :
  forall w : World,
    Bot.value (poll_events report_channel cycles w) = Ok tt
    /\ (cycles
        <= List.length (Trace.posts
                          (Bot.effects (poll_events report_channel cycles w)))
        <= 2 * cycles)%nat
    /\ (List.length (Trace.acks
                       (Bot.effects (poll_events report_channel cycles w)))
        <= cycles)%nat.
Proof.
  induction cycles as [ | n IH]; intros w; cbn [poll_events].
  - unfold Bot.ret, Bot.value, Bot.effects. cbn. repeat split; lia.
  - unfold Bot.bind.
    assert (V := cycle_returns report_channel w).
    assert (R := cycle_posts report_channel w).
    assert (A := ack_batch_counts report_channel w).
    destruct (poll_cycle report_channel w) as [[r w1] t].
    unfold Bot.value, Bot.effects in V, R, A. cbn [fst snd] in V, R, A.
    subst r. specialize (IH w1).
    destruct (poll_events report_channel n w1) as [[r2 w2] t2].
    unfold Bot.value, Bot.effects in *. cbn [fst snd] in *.
    destruct IH as (-> & Pn & An).
    rewrite posts_app, acks_app, !length_app.
    split; [reflexivity | ].
    destruct R as [-> | (ids & _ & ->)]; cbn [List.length]; lia.
Qed.

End Loop.

(** ** A cycle whose loop goes through *)

Section Completes.
Context {rt : PyRuntime} {World : Type} {sv : Services World}.

(** A fetch that brought events brought at least one. *)
Lemma fetched_nonempty (v : pyval) (events : list pyval) :
  fetched v events -> events <> [].
Proof.
  intros (H & data & X & T). unfold has_events in H.
  destruct (has_data v) as [[ | ] | e]; cbn [rbind] in H;
    try discriminate H.
  rewrite X in H. cbn [rbind] in H.
  destruct data as [ | | | | s | l | d]; try discriminate T;
    cbn [Py.len Py.iter rbind] in H, T; apply Ok_inj in T; subst events;
    apply Ok_inj in H; apply Z.ltb_lt in H.
  - destruct s; [cbn in H; lia | discriminate].
  - destruct l; [cbn in H; lia | discriminate].
  - destruct d; [cbn in H; lia | discriminate].
Qed.

(** A delivered message whose event has an id adds that id. *)
Lemma post_to_channel_collects (rc : bool) (event : pyval) (formatted : str)
  (posted : list pyval) (w : World) (id : pyval) :
  Trace.delivered (Bot.effects (post_to_channel rc event formatted posted w))
  = [event] ->
  Trace.has_id event id ->
  Bot.value (post_to_channel rc event formatted posted w)
  = Ok (posted ++ [id]).
Proof.
  unfold post_to_channel, Trace.has_id. intros D I. destruct rc.
  - unfold Bot.bind, send, Bot.lift, log_info, Bot.emit, Bot.ret,
      Bot.value, Bot.effects in *.
    destruct (channel_send formatted w) as [[[] | e] w1].
    + rewrite I in *.
      destruct event as [ | | | | | | d]; try discriminate I. reflexivity.
    + discriminate D.
  - discriminate D.
Qed.

(** When the loop delivered every event of its list and each has an id, it
    went through, and collected the ids of the events, in order. *)
Lemma deliver_each_completes (events : list pyval) :
  forall (posted : list pyval) (w : World),
    Trace.delivered (Bot.effects (deliver_each true events posted w))
    = events ->
    Forall (fun event => exists id, Trace.has_id event id) events ->
    exists ids,
      Bot.value (deliver_each true events posted w) = Ok (posted ++ ids)
      /\ Forall2 Trace.has_id events ids.
Proof.
  induction events as [ | event rest IH]; intros posted w D F.
  - exists []. split; [ | constructor].
    cbn [deliver_each]. unfold Bot.ret, Bot.value. cbn [fst].
    now rewrite app_nil_r.
  - inversion F as [ | x l [id I] F' ]. subst x l.
    destruct (deliver_each true (event :: rest) posted w) as [[r w'] t]
      eqn:E.
    unfold Bot.value, Bot.effects in *. cbn [fst snd] in *.
    cbn [deliver_each] in E. unfold Bot.bind at 1 in E.
    destruct (format_event_shape event w) as (r1 & w1 & t1 & S & Q).
    rewrite S in E.
    apply internal_quiet in Q. destruct Q as (_ & _ & D1 & _).
    destruct r1 as [formatted | e];
      [ | injection E as <- <- <-; rewrite D1 in D; discriminate D ].
    unfold Bot.bind in E.
    destruct (post_to_channel_order true event formatted posted w1)
      as [_ O].
    specialize (O eq_refl).
    assert (C := post_to_channel_collects true event formatted posted w1 id).
    destruct (post_to_channel true event formatted posted w1)
      as [[r2 w2] t2].
    unfold Bot.value, Bot.effects in O, C. cbn [fst snd] in O, C.
    destruct O as [[D2 U2] | (D2 & _ & _)].
    + specialize (C D2 I). subst r2.
      specialize (IH (posted ++ [id]) w2).
      destruct (deliver_each true rest (posted ++ [id]) w2)
        as [[r3 w3] t3].
      unfold Bot.value, Bot.effects in IH. cbn [fst snd] in IH.
      injection E as <- <- <-.
      rewrite !delivered_app, D1, D2 in D. cbn [app] in D.
      injection D as D.
      destruct (IH D F') as (ids & V & H).
      exists (id :: ids). split.
      * rewrite V, <- app_assoc. reflexivity.
      * now constructor.
    + destruct r2 as [posted2 | e].
      * destruct (deliver_each_order rest posted2 w2) as ((rest' & R) & _).
        destruct (deliver_each true rest posted2 w2) as [[r3 w3] t3].
        unfold Bot.effects in R. cbn [snd] in R.
        injection E as <- <- <-.
        rewrite !delivered_app, D1, D2 in D. cbn [app] in D.
        apply (f_equal (@List.length pyval)) in R, D.
        rewrite !length_app in R. cbn [List.length] in D. lia.
      * injection E as <- <- <-.
        rewrite !delivered_app, D1, D2 in D. discriminate D.
Qed.

(** When every event of the fetch was delivered and has an id, the cycle
    sends one acknowledgment, whose batch is the ids of the events. *)
Lemma delivered_ids_are_acknowledged (rc : bool) (w : World) (v : pyval)
  (events : list pyval) :
  Bot.value (call_vps_api (u "get_events") None w) = Ok v ->
  fetched v events ->
  Trace.delivered (Bot.effects (poll_cycle rc w)) = events ->
  Forall (fun event => exists id, Trace.has_id event id) events ->
  exists ids,
    Trace.acks (Bot.effects (poll_cycle rc w)) = [ids]
    /\ Forall2 Trace.has_id events ids.
Proof.
  intros V F D H.
  assert (N := fetched_nonempty v events F).
  destruct (poll_cycle_effects rc w) as (l & L & E). rewrite E in *.
  apply internal_quiet in L. destruct L as (_ & Al & Dl & _).
  rewrite acks_app, Al, app_nil_r.
  rewrite delivered_app, Dl, app_nil_r in D.
  destruct (poll_cycle_body_cases rc w) as (v' & w1 & logs & C & I & K).
  rewrite C in V. unfold Bot.value in V. cbn [fst] in V.
  apply Ok_inj in V. subst v'.
  apply internal_quiet in I. destruct I as (_ & A & D0 & _).
  assert (Kf : Trace.is_ack fetch_request = false) by exact fetch_is_no_ack.
  destruct K as [[_ X] | (events' & r & w3 & del & F' & R & K)];
    [now destruct (X events) | ].
  assert (events' = events).
  { destruct F as (_ & d1 & X1 & T1), F' as (_ & d2 & X2 & T2). congruence. }
  subst events'.
  assert (Dd : Trace.delivered del = events).
  { destruct K as [(id & ids & logs2 & _ & I2 & B) | (_ & B)];
      rewrite B in D; cbn [Trace.delivered] in D;
      rewrite !delivered_app, D0 in D; cbn [app Trace.delivered] in D.
    - apply internal_quiet in I2. destruct I2 as (_ & _ & D2 & _).
      now rewrite D2, app_nil_r in D.
    - exact D. }
  assert (rc = true).
  { destruct rc; trivial.
    destruct (deliver_each_no_channel events [] w1) as (Z0 & _).
    rewrite R in Z0. unfold Bot.effects in Z0. cbn [snd] in Z0. congruence. }
  subst rc.
  assert (Cm := deliver_each_completes events [] w1).
  assert (Sp := deliver_each_spec true events [] w1).
  rewrite R in Cm, Sp. destruct Sp as [Pd _].
  unfold Bot.value, Bot.effects in Cm, Pd. cbn [fst snd app] in Cm, Pd.
  destruct (Cm Dd H) as (ids & Vr & Hid).
  exists ids. split; [ | exact Hid].
  destruct K as [(id & ids' & logs2 & Rv & I2 & ->) | ([Rv | [e Rv]] & _)].
  - apply internal_quiet in I2. destruct I2 as (_ & A2 & _).
    destruct (ack_body (id :: ids')) as [Ka Kb].
    cbn [Trace.acks]. rewrite !acks_app. cbn [Trace.acks].
    unfold ack_request. rewrite Kf, Ka, Kb, A, A2, (no_posts_no_acks del Pd).
    cbn [app]. congruence.
  - exfalso. rewrite Rv in Vr. apply Ok_inj in Vr. subst ids.
    destruct events; [now apply N | inversion Hid].
  - rewrite Rv in Vr. discriminate Vr.
Qed.

End Completes.

(** C1 (partial-cycle resilience, amended): in every polling cycle an
    acknowledgment, when one is sent, is the only one, and its batch is
    non-empty and holds exactly the ids of the events delivered in that
    cycle, in order, none of whose deliveries failed; a delivery that fails
    is not set aside: it ends the cycle, and then no acknowledgment is sent
    at all.  And the ids of the delivered events are acknowledged: when
    every event of the fetch was delivered and has an id, the cycle sends
    exactly one acknowledgment, and its batch is the ids of those events, in
    the order of the fetch. *)
Theorem ack_batch_is_the_delivered_ids {rt : PyRuntime} {World : Type}
  {sv : Services World} (report_channel : bool) (w : World) :
  let t := Bot.effects (poll_cycle report_channel w) in
  (Trace.acks t = []
   \/ exists ids,
        Trace.acks t = [ids] /\ ids <> []
        /\ Forall2 Trace.has_id (Trace.delivered t) ids
        /\ Trace.undelivered t = [])
  /\ (Trace.undelivered t <> [] -> Trace.acks t = [])
  /\ (forall v events,
        Bot.value (call_vps_api (u "get_events") None w) = Ok v ->
        fetched v events ->
        Trace.delivered t = events ->
        Forall (fun event => exists id, Trace.has_id event id) events ->
        exists ids,
          Trace.acks t = [ids] /\ ids <> []
          /\ Forall2 Trace.has_id events ids).
Proof.
  cbv zeta.
  destruct (acks_are_the_delivered_ids report_channel w) as [S N].
  split; [exact S | ]. split; [exact N | ].
  intros v events V F D H.
  destruct (delivered_ids_are_acknowledged report_channel w v events V F D H)
    as (ids & A & I).
  exists ids. repeat split; trivial.
  intros ->. destruct events; [ | inversion I].
  exact (fetched_nonempty v [] F eq_refl).
Qed.

(** The cycle in which the sink accepts both messages: both events of the
    fetch are delivered and have an id, and their ids are acknowledged. *)
Lemma ack_batch_is_the_delivered_ids_witness :
  exists ids,
    Trace.acks (Bot.effects (poll_cycle (rt := sample_runtime) true both_sent))
    = [ids]
    /\ ids <> []
    /\ Forall2 Trace.has_id [buy_event; sell_event] ids.
Proof.
  pose proof (ack_batch_is_the_delivered_ids (rt := sample_runtime) true
                both_sent) as T.
  cbv zeta in T. destruct T as (_ & _ & L).
  apply (L (PDict [ (u "data", PList [buy_event; sell_event]) ])
           [buy_event; sell_event]).
  - vm_compute. reflexivity.
  - split; [vm_compute; reflexivity | ].
    eexists. split; vm_compute; reflexivity.
  - vm_compute. reflexivity.
  - repeat constructor; eexists; vm_compute; reflexivity.
Defined.

Lemma delivery_in_fetch_order_witness :
  (exists rest,
     [buy_event; sell_event]
     = Trace.delivered
         (Bot.effects (poll_cycle (rt := sample_runtime) true
                         second_send_fails))
       ++ Trace.undelivered
            (Bot.effects (poll_cycle (rt := sample_runtime) true
                            second_send_fails))
       ++ rest)
  /\ (List.length
        (Trace.undelivered
           (Bot.effects (poll_cycle (rt := sample_runtime) true
                           second_send_fails))) <= 1)%nat
  /\ (Trace.acks
        (Bot.effects (poll_cycle (rt := sample_runtime) true
                        second_send_fails)) <> [] ->
      Trace.delivered
        (Bot.effects (poll_cycle (rt := sample_runtime) true
                        second_send_fails))
      = [buy_event; sell_event]).
Proof.
  apply (delivery_in_fetch_order (rt := sample_runtime) second_send_fails
           (PDict [ (u "data", PList [buy_event; sell_event]) ])
           [buy_event; sell_event]).
  - vm_compute. reflexivity.
  - split; [vm_compute; reflexivity | ].
    exists (PList [buy_event; sell_event]).
    split; vm_compute; reflexivity.
Defined.

(** ** More on the two formatters *)

(** *** White space around the generated text *)

Lemma lstrip_head (s : str) (c : N) (r : str) :
  lstrip s = c :: r -> is_space c = false.
Proof.
  induction s as [ | a s IH]; cbn [lstrip]; [discriminate | ].
  destruct (is_space a) eqn:A; [exact IH | ].
  intros H. injection H as <- _. exact A.
Qed.

Lemma lstrip_spaces (s : str) :
  Forall (fun c => is_space c = true) s -> lstrip s = [].
Proof.
  induction 1 as [ | c s C _ IH]; cbn [lstrip]; [reflexivity | ].
  now rewrite C.
Qed.

(** [lstrip] removes a prefix, so a non-empty result ends as the text did. *)
Lemma lstrip_last (s : str) (r : str) (c : N) :
  lstrip s = r ++ [c] -> exists p, s = p ++ [c].
Proof.
  induction s as [ | a s IH]; cbn [lstrip].
  - destruct r; discriminate.
  - destruct (is_space a).
    + intros H. destruct (IH H) as [p ->]. now exists (a :: p).
    + intros H. exists r. exact H.
Qed.

Lemma strip_trimmed (s : str) : trimmed (strip s).
Proof.
  unfold trimmed, strip. split; intros c r H.
  - (* the first character is the last one that the inner strip kept *)
    apply (f_equal (@rev N)) in H. rewrite rev_involutive in H.
    cbn [rev] in H.
    destruct (lstrip_last _ _ _ H) as [p P].
    apply (f_equal (@rev N)) in P. rewrite rev_involutive, rev_app_distr in P.
    cbn [rev app] in P. exact (lstrip_head _ _ _ P).
  - apply (f_equal (@rev N)) in H.
    rewrite rev_involutive, rev_app_distr in H. cbn [rev app] in H.
    exact (lstrip_head _ _ _ H).
Qed.

Lemma strip_spaces (s : str) :
  Forall (fun c => is_space c = true) s -> strip s = [].
Proof.
  intros H. unfold strip. now rewrite (lstrip_spaces s H).
Qed.

Section Generated.
Context {rt : PyRuntime} {World : Type} {sv : Services World}.

(** What [call_ollama] returns is the stripped content of the response. *)
Lemma call_ollama_content (prompt : str) (max_tokens : Z) (w : World)
  (resp : pyval) (content : str) :
  fst (ol_chat prompt max_tokens w) = Ok resp ->
  chat_content resp content ->
  Bot.value (call_ollama prompt max_tokens w) = Ok (Some (strip content)).
Proof.
  intros C (m & M & K).
  unfold call_ollama, Bot.try, Bot.bind, chat, Bot.lift, Bot.ret, Bot.value.
  destruct (ol_chat prompt max_tokens w) as [r w1]. cbn [fst] in C.
  subst r. rewrite M, K. reflexivity.
Qed.

(** The text [call_ollama] returns has no white space at either end. *)
Lemma generated_text_is_trimmed (prompt : str) (max_tokens : Z) (w : World)
  (text : str) :
  Bot.value (call_ollama prompt max_tokens w) = Ok (Some text) ->
  trimmed text.
Proof.
  unfold call_ollama, Bot.try, Bot.bind, chat, Bot.lift, log_error,
    Bot.emit, Bot.ret, Bot.value.
  destruct (ol_chat prompt max_tokens w) as [[resp | e] w1];
    [ destruct (Py.index resp (u "message")) as [message | e];
      [ destruct (Py.index message (u "content")) as [content | e];
        [ destruct content | ] | ] | ];
    cbn [fst]; intros H; try discriminate H.
  apply Ok_inj in H. injection H as <-. apply strip_trimmed.
Qed.

(** An answer of the backend that is empty or all white space counts as no
    answer: the event is formatted by the deterministic formatter. *)
Lemma blank_answer_falls_back (event : pyval) (w : World) (prompt : str)
  (resp : pyval) (content : str) :
  event_prompt event = Ok prompt ->
  fst (ol_chat prompt 200 w) = Ok resp ->
  chat_content resp content ->
  Forall (fun c => is_space c = true) content ->
  Bot.value (format_event_with_ollama event w) = format_event_fallback event.
Proof.
  intros P C K B.
  assert (V := call_ollama_content prompt 200 w resp content C K).
  rewrite (strip_spaces content B) in V.
  unfold format_event_with_ollama, Bot.bind, Bot.lift. rewrite P.
  destruct (call_ollama prompt 200 w) as [[r w1] t1].
  unfold Bot.value in *. cbn [fst] in V. subst r. reflexivity.
Qed.

(** Formatting an event calls the backend at most once, with a budget of
    200 tokens and the prompt of the event, and reaches neither the engine
    nor the sink. *)
Lemma format_event_effects (event : pyval) (w : World) :
  let t := Bot.effects (format_event_with_ollama event w) in
  Trace.posts t = [] /\ Trace.delivered t = [] /\ Trace.undelivered t = []
  /\ ((exists prompt,
         event_prompt event = Ok prompt /\ Trace.chats t = [(prompt, 200)])
      \/ ((exists e, event_prompt event = Raise e) /\ t = [])).
Proof.
  cbv zeta.
  destruct (format_event_shape event w) as (r & w1 & t & E & I).
  apply internal_quiet in I. destruct I as (P & _ & D & U).
  rewrite E. unfold Bot.effects. cbn [snd].
  repeat split; trivial.
  unfold format_event_with_ollama, Bot.bind, Bot.lift in E.
  destruct (event_prompt event) as [prompt | e].
  - left. exists prompt. split; [reflexivity | ].
    assert (C := call_ollama_chats prompt 200 w).
    destruct (call_ollama prompt 200 w) as [[r1 w2] t1].
    unfold Bot.effects in C. cbn [snd] in C.
    destruct r1 as [[[ | c text] | ] | e']; unfold Bot.ret in E;
      injection E as <- <- <-; rewrite ?app_nil_r; exact C.
  - right. injection E as <- <- <-. split; [now exists e | reflexivity].
Qed.

End Generated.

Lemma generated_text_is_trimmed_witness :
  trimmed (u "Sold BTC at $65000, +1.8%").
Proof.
  apply (generated_text_is_trimmed (u "any prompt") 200 chatty).
  vm_compute. reflexivity.
Defined.

Lemma blank_answer_falls_back_witness :
  Bot.value (format_event_with_ollama (rt := sample_runtime) sell_event
               {| http_answers := [];
                  chat_answers := [ chat_response "   " ];
                  send_answers := [] |})
  = format_event_fallback (rt := sample_runtime) sell_event.
Proof.
  destruct (event_prompt (rt := sample_runtime) sell_event) as [prompt | e]
    eqn:P; [ | vm_compute in P; discriminate P ].
  apply (blank_answer_falls_back (rt := sample_runtime) sell_event
           {| http_answers := [];
              chat_answers := [ chat_response "   " ];
              send_answers := [] |}
           prompt
           (PDict [ (u "message", PDict [ (u "content", PStr (u "   ")) ]) ])
           (u "   ") P).
  - reflexivity.
  - exists (PDict [ (u "content", PStr (u "   ")) ]).
    split; vm_compute; reflexivity.
  - vm_compute. repeat constructor.
Defined.

(** *** Metadata as it reaches the templates *)

Lemma fallback_meta_not_str {rt : PyRuntime} (v : pyval) :
  (forall s, v <> PStr s) ->
  fallback_meta v = if Py.truthy v then v else PDict [].
Proof.
  intros N. destruct v; try reflexivity. now destruct (N s).
Qed.

Lemma ollama_meta_not_str {rt : PyRuntime} (v : pyval) :
  (forall s, v <> PStr s) -> ollama_meta v = v.
Proof.
  intros N. destruct v; try reflexivity. now destruct (N s).
Qed.

(** Both formatters treat metadata that arrives as a JSON string exactly as
    they treat the value it decodes to (a string is decoded once: the
    decoded value is not decoded again). *)
Lemma encoded_metadata_is_decoded {rt : PyRuntime} (d : dict) (s : str)
  (v : pyval) :
  lookup d "metadata" PNone = PStr s ->
  json_loads s = Some v ->
  (forall s', v <> PStr s') ->
  format_event_fallback (PDict d)
  = format_event_fallback (PDict (Py.dict_set d (u "metadata") v))
  /\ event_prompt (PDict d)
     = event_prompt (PDict (Py.dict_set d (u "metadata") v)).
Proof.
  intros M J N. split.
  - unfold format_event_fallback. rewrite !get_dict. cbn [rbind].
    rewrite lookup_set_same, M.
    rewrite !lookup_set_other by (vm_compute; discriminate).
    rewrite (fallback_meta_not_str v N).
    unfold fallback_meta. rewrite J. reflexivity.
  - unfold event_prompt. rewrite !get_dict. cbn [rbind].
    rewrite lookup_set_same, M.
    rewrite !lookup_set_other by (vm_compute; discriminate).
    rewrite (ollama_meta_not_str v N).
    unfold ollama_meta. rewrite J. reflexivity.
Qed.

Lemma encoded_metadata_is_decoded_witness :
  format_event_fallback (rt := sample_runtime)
    (PDict [ (u "event_type", PStr (u "ENGINE_STOP"));
             (u "metadata", PStr (u "{}")) ])
  = format_event_fallback (rt := sample_runtime)
      (PDict [ (u "event_type", PStr (u "ENGINE_STOP"));
               (u "metadata", PDict []) ])
  /\ event_prompt (rt := sample_runtime)
       (PDict [ (u "event_type", PStr (u "ENGINE_STOP"));
                (u "metadata", PStr (u "{}")) ])
     = event_prompt (rt := sample_runtime)
         (PDict [ (u "event_type", PStr (u "ENGINE_STOP"));
                  (u "metadata", PDict []) ]).
Proof.
  apply (encoded_metadata_is_decoded (rt := sample_runtime)
           [ (u "event_type", PStr (u "ENGINE_STOP"));
             (u "metadata", PStr (u "{}")) ]
           (u "{}") (PDict [])).
  - vm_compute. reflexivity.
  - vm_compute. reflexivity.
  - intros s'. discriminate.
Defined.

(** Metadata that is falsy without being a string ([None], [false], [0],
    [0.0], an empty list or dict) is formatted as empty metadata. *)
Lemma falsy_metadata_is_empty {rt : PyRuntime} (d : dict) (v : pyval) :
  lookup d "metadata" PNone = v ->
  (forall s, v <> PStr s) ->
  Py.truthy v = false ->
  format_event_fallback (PDict d)
  = format_event_fallback (PDict (Py.dict_set d (u "metadata") (PDict []))).
Proof.
  intros M N F. unfold format_event_fallback. rewrite !get_dict.
  cbn [rbind]. rewrite lookup_set_same, M.
  rewrite !lookup_set_other by (vm_compute; discriminate).
  rewrite (fallback_meta_not_str v N), F. reflexivity.
Qed.

Lemma falsy_metadata_is_empty_witness :
  format_event_fallback (rt := sample_runtime)
    (PDict [ (u "event_type", PStr (u "SELL")); (u "metadata", PInt 0) ])
  = format_event_fallback (rt := sample_runtime)
      (PDict [ (u "event_type", PStr (u "SELL"));
               (u "metadata", PDict []) ]).
Proof.
  apply (falsy_metadata_is_empty (rt := sample_runtime)
           [ (u "event_type", PStr (u "SELL")); (u "metadata", PInt 0) ]
           (PInt 0)).
  - vm_compute. reflexivity.
  - intros s. discriminate.
  - reflexivity.
Defined.

(** *** When the deterministic formatter returns *)

Lemma format_fixed_ok_number plus prec (v : pyval) (s : str) :
  Py.format_fixed plus prec v = Ok s -> is_number v.
Proof.
  destruct v; cbn; try discriminate; trivial.
  destruct (float_of_int n); [discriminate | discriminate].
Qed.

(** Every template reads the metadata with [get] first: metadata that is
    no dict makes it raise [AttributeError]. *)
Lemma templates_need_dict {rt : PyRuntime} (s : str) (sym meta : pyval) :
  is_dict meta = false ->
  match assoc s (templates sym meta) with
  | Some f => f = Raise AttributeError
  | None => True
  end.
Proof.
  intros D. unfold templates. cbn [assoc].
  assert (G : forall key default,
             Py.get meta (u key) default = Raise AttributeError).
  { intros key default. destruct meta; try reflexivity. discriminate D. }
  assert (F : forall key default, field meta key default = Raise AttributeError).
  { intros key default. unfold field. now rewrite G. }
  repeat (table_entry s; [ cbv beta iota; rewrite ?F; reflexivity | ]).
  trivial.
Qed.

(** Decide the comparisons of two string literals in the goal. *)
Ltac literal_eqb :=
  repeat match goal with
         | |- context [str_eqb (u ?a) (u ?b)] =>
           let v := eval vm_compute in (str_eqb (u a) (u b)) in
           replace (str_eqb (u a) (u b)) with v by (vm_compute; reflexivity)
         end.

Lemma hourly_needs_numbers {rt : PyRuntime} (sym : pyval) (m : dict) :
  match assoc (u "HOURLY_SUMMARY") (templates sym (PDict m)) with
  | Some f => (exists out, f = Ok out) -> hourly_numbers (PDict m)
  | None => False
  end.
Proof.
  unfold templates. cbn [assoc]. literal_eqb. cbv beta iota.
  rewrite field_dict. cbn [rbind]. unfold field_2f. cbn [Py.get rbind].
  fold (lookup m "unrealized_pnl" (PInt 0)).
  fold (lookup m "realized_pnl" (PInt 0)).
  intros [out H] m' E. injection E as <-.
  destruct (Py.format_fixed false 2 (lookup m "unrealized_pnl" (PInt 0)))
    as [s1 | e] eqn:F1; cbn [rbind] in H; [ | discriminate H].
  destruct (Py.format_fixed false 2 (lookup m "realized_pnl" (PInt 0)))
    as [s2 | e] eqn:F2; cbn [rbind] in H; [ | discriminate H].
  split; eapply format_fixed_ok_number; eassumption.
Qed.

Lemma hourly_is_known {rt : PyRuntime} :
  known_type (PStr (u "HOURLY_SUMMARY")) = true.
Proof. vm_compute. reflexivity. Qed.

(** [format_event_fallback] returns a string on exactly these events: a
    dict whose type is hashable, whose metadata (as the templates receive
    it) is a dict when the type has a template, and whose two hourly P&L
    fields are numbers; on every other event it raises. *)
Lemma fallback_returns_iff {rt : PyRuntime} (event : pyval) :
  (exists out, format_event_fallback event = Ok out)
  <-> exists d,
        event = PDict d
        /\ hashable (lookup d "event_type" (PStr (u "UNKNOWN"))) = true
        /\ (known_type (lookup d "event_type" (PStr (u "UNKNOWN"))) = true ->
            is_dict (fallback_meta (lookup d "metadata" PNone)) = true)
        /\ (lookup d "event_type" (PStr (u "UNKNOWN"))
            = PStr (u "HOURLY_SUMMARY") ->
            hourly_numbers (fallback_meta (lookup d "metadata" PNone))).
Proof.
  split.
  - intros [out H].
    destruct event as [ | | | | | | d]; try discriminate H.
    exists d. split; [reflexivity | ].
    unfold format_event_fallback in H. rewrite !get_dict in H.
    cbn [rbind] in H.
    set (et := lookup d "event_type" (PStr (u "UNKNOWN"))) in *.
    set (sym := lookup d "symbol" (PStr [])) in *.
    set (meta := fallback_meta (lookup d "metadata" PNone)) in *.
    destruct et as [ | b | n | x | s | l | l]; cbn [table_get rbind] in H;
      try discriminate H;
      try (split; [reflexivity | split; discriminate]).
    split; [reflexivity | ].
    assert (T := templates_need_dict s sym meta).
    assert (K := assoc_templates s sym meta).
    destruct (assoc s (templates sym meta)) as [f | ] eqn:A.
    + assert (D : is_dict meta = true).
      { destruct (is_dict meta); trivial.
        rewrite (T eq_refl) in H. discriminate H. }
      split; [intros _; exact D | ].
      intros E. injection E as ->.
      destruct meta as [ | | | | | | m]; try discriminate D.
      assert (N := hourly_needs_numbers sym m). rewrite A in N.
      apply N. now exists out.
    + split.
      * intros Kt. destruct K as [K _]. rewrite (K eq_refl) in Kt.
        discriminate Kt.
      * intros E. injection E as ->. destruct K as [K _].
        rewrite hourly_is_known in K. discriminate (K eq_refl).
  - intros (d & -> & Hh & Hk & Hn).
    destruct (fallback_ok d Hh Hk Hn) as (out & E & _). now exists out.
Qed.

(** The generic template, for a type without a template of its own: the
    type, the symbol, and at most 200 characters of the metadata as JSON. *)
Lemma generic_template_length {rt : PyRuntime} (d : dict) :
  let et := lookup d "event_type" (PStr (u "UNKNOWN")) in
  let sym := lookup d "symbol" (PStr []) in
  let meta := fallback_meta (lookup d "metadata" PNone) in
  hashable et = true ->
  known_type et = false ->
  exists out,
    format_event_fallback (PDict d) = Ok out
    /\ List.length out
       = (10 + List.length (Py.to_str et) + List.length (Py.to_str sym)
          + Nat.min 200 (List.length (Py.json_dumps meta)))%nat
    /\ (List.length out
        <= 210 + List.length (Py.to_str et) + List.length (Py.to_str sym))%nat.
Proof.
  cbv zeta. intros Hh Hk.
  unfold format_event_fallback. rewrite !get_dict. cbn [rbind].
  set (et := lookup d "event_type" (PStr (u "UNKNOWN"))) in *.
  set (sym := lookup d "symbol" (PStr [])).
  set (meta := fallback_meta (lookup d "metadata" PNone)).
  assert (L : forall out,
            default_template et sym meta = Ok out ->
            List.length out
            = (10 + List.length (Py.to_str et) + List.length (Py.to_str sym)
               + Nat.min 200 (List.length (Py.json_dumps meta)))%nat).
  { unfold default_template. intros out H. apply Ok_inj in H. subst out.
    rewrite !length_app. unfold slice_to. rewrite length_firstn.
    replace (List.length (u "📌 **")) with 4%nat by (vm_compute; reflexivity).
    replace (List.length (u "** ")) with 3%nat by (vm_compute; reflexivity).
    replace (List.length (u " | ")) with 3%nat by (vm_compute; reflexivity).
    lia. }
  assert (G : exists out, default_template et sym meta = Ok out)
    by (eexists; reflexivity).
  destruct G as [out G].
  assert (R : (x <- table_get (templates sym meta) et
                      (default_template et sym meta) ;; x)%result = Ok out).
  { destruct et as [ | b | n | x | s | l | l]; try discriminate Hh;
      cbn [table_get rbind]; trivial.
    destruct (assoc_templates s sym meta) as [_ K].
    now rewrite (K Hk). }
  exists out. split; [exact R | ]. split; [now apply L | ].
  rewrite (L out G). lia.
Qed.

Lemma generic_template_length_witness :
  exists out,
    format_event_fallback (rt := sample_runtime) (note_event "not json")
    = Ok out
    /\ List.length out = 19%nat.
Proof.
  destruct (generic_template_length (rt := sample_runtime)
              [ (u "id", PInt 5);
                (u "event_type", PStr (u "NOTE"));
                (u "symbol", PStr (u "BTC"));
                (u "metadata", PStr (u "not json")) ])
    as (out & E & L & _).
  - vm_compute. reflexivity.
  - vm_compute. reflexivity.
  - exists out. split; [exact E | ]. rewrite L. vm_compute. reflexivity.
Defined.

(** ** More on the API client *)

Lemma dict_get_app (a b : dict) (k : str) :
  Py.dict_get (a ++ b) k
  = match Py.dict_get a k with
    | Some v => Some v
    | None => Py.dict_get b k
    end.
Proof.
  induction a as [ | [k' v'] a IH]; cbn; trivial.
  destruct (str_eqb k' k); trivial.
Qed.

Lemma dict_get_set (d : dict) (k k' : str) (v : pyval) :
  Py.dict_get (Py.dict_set d k v) k'
  = if str_eqb k k' then Some v else Py.dict_get d k'.
Proof.
  destruct (str_eqb k k') eqn:E.
  - apply str_eqb_eq in E. subst k'. apply dict_get_set_same.
  - apply dict_get_set_other. intros ->. now rewrite str_eqb_refl in E.
Qed.

(** After [d.update(other)] a key has the value [other] gives it (the last
    one, should [other] list it twice), and otherwise the value it had. *)
Lemma dict_get_update (other : dict) :
  forall (d : dict) (k : str),
    Py.dict_get (Py.dict_update d other) k
    = match Py.dict_get (rev other) k with
      | Some v => Some v
      | None => Py.dict_get d k
      end.
Proof.
  unfold Py.dict_update.
  induction other as [ | [k0 v0] other IH]; intros d k; cbn [fold_left rev].
  - reflexivity.
  - rewrite IH, dict_get_app. cbn [fst snd Py.dict_get].
    destruct (Py.dict_get (rev other) k); trivial.
    rewrite dict_get_set. now destruct (str_eqb k0 k).
Qed.

(** The body of a request carries every extra parameter, and the action
    under the key [action] unless a parameter of that name replaces it. *)
Lemma request_body_lookup (action : str) (extra_data : option dict) (k : str) :
  Py.dict_get (request_body action extra_data) k
  = match Py.dict_get
            (rev match extra_data with Some d => d | None => [] end) k with
    | Some v => Some v
    | None => if str_eqb (u "action") k then Some (PStr action) else None
    end.
Proof.
  unfold request_body. destruct extra_data as [[ | kv extra] | ].
  - reflexivity.
  - now rewrite dict_get_update.
  - reflexivity.
Qed.

(** ** More on the query responder *)

Section Responder.
Context {rt : PyRuntime}.

Lemma dict_get_nonempty (d : dict) (k : str) (v : pyval) :
  Py.dict_get d k = Some v -> Py.truthy (PDict d) = true.
Proof. destruct d; [discriminate | reflexivity]. Qed.

(** Of a listing only the first [n] items are read: the items after them
    change nothing, whatever they are. *)
Lemma listing_reads_first_items (heading : str) (n : nat)
  (line : pyval -> result str) (d : dict) (l : list pyval) (context : str) :
  (0 < n)%nat ->
  Py.dict_get d (u "data") = Some (PList l) ->
  listing_section heading n line (PDict d) context
  = listing_section heading n line
      (PDict (Py.dict_set d (u "data") (PList (firstn n l)))) context.
Proof.
  intros N D.
  assert (D' := dict_get_set_same d (u "data") (PList (firstn n l))).
  unfold listing_section, has_data.
  rewrite (dict_get_nonempty _ _ _ D), (dict_get_nonempty _ _ _ D').
  unfold Py.contains, Py.index. rewrite D, D'. cbn [rbind Py.len Py.slice].
  rewrite firstn_firstn, Nat.min_id, length_firstn.
  replace (0 <? Z.of_nat (Nat.min n (List.length l)))
    with (0 <? Z.of_nat (List.length l)); [reflexivity | ].
  destruct (Z.ltb_spec 0 (Z.of_nat (List.length l))),
    (Z.ltb_spec 0 (Z.of_nat (Nat.min n (List.length l)))); trivial; lia.
Qed.

(** The context is built from the first five positions and the first three
    decisions only. *)
Lemma context_reads_first_items (portfolio : pyval) (dp dd : dict)
  (positions decisions : list pyval) :
  Py.dict_get dp (u "data") = Some (PList positions) ->
  Py.dict_get dd (u "data") = Some (PList decisions) ->
  query_context portfolio (PDict dp) (PDict dd)
  = query_context portfolio
      (PDict (Py.dict_set dp (u "data") (PList (firstn 5 positions))))
      (PDict (Py.dict_set dd (u "data") (PList (firstn 3 decisions)))).
Proof.
  intros P D. unfold query_context.
  destruct (portfolio_section portfolio (u "TRADING SYSTEM DATA:" ++ nl ++ nl))
    as [c1 | e]; cbn [rbind]; trivial.
  rewrite <- (listing_reads_first_items _ 5 position_line dp positions c1)
    by (trivial; lia).
  destruct (listing_section (u "Open positions:") 5 position_line (PDict dp) c1)
    as [c2 | e]; cbn [rbind]; trivial.
  apply listing_reads_first_items; trivial. lia.
Qed.

(** A snapshot that could not be fetched leaves its section out, and so
    does a listing without items. *)
Lemma missing_snapshots_are_left_out (heading : str) (n : nat)
  (line : pyval -> result str) (d : dict) (context : str) :
  portfolio_section PNone context = Ok context
  /\ listing_section heading n line PNone context = Ok context
  /\ (Py.dict_get d (u "data") = Some (PList []) ->
      listing_section heading n line (PDict d) context = Ok context)
  /\ (Py.dict_get d (u "data") = None ->
      portfolio_section (PDict d) context = Ok context
      /\ listing_section heading n line (PDict d) context = Ok context).
Proof.
  repeat split.
  - intros D. unfold listing_section, has_data.
    rewrite (dict_get_nonempty _ _ _ D). unfold Py.contains, Py.index.
    now rewrite D.
  - unfold portfolio_section, has_data, Py.contains.
    destruct (Py.truthy (PDict d)); trivial. now rewrite H.
  - unfold listing_section, has_data, Py.contains.
    destruct (Py.truthy (PDict d)); trivial. now rewrite H.
Qed.

End Responder.

Section ResponderEffects.
Context {rt : PyRuntime} {World : Type} {sv : Services World}.

(** What answering a question does to the outside world. *)
Lemma query_run (question : str) (w : World) :
  let t := Bot.effects (handle_user_query question w) in
  Trace.posts t
  = [ request_body (u "get_portfolio_summary") None;
      request_body (u "get_positions") None;
      request_body (u "get_decisions") (Some [(u "limit", PInt 5)]) ]
  /\ Trace.acks t = []
  /\ Trace.delivered t = [] /\ Trace.undelivered t = []
  /\ (List.length (Trace.chats t) <= 1)%nat
  /\ (forall prompt n, In (prompt, n) (Trace.chats t) -> n = 400).
Proof.
  cbv zeta.
  destruct (handle_user_query question w) as [[r0 w0] t0] eqn:B.
  unfold Bot.effects. cbn [snd].
  unfold handle_user_query in B. unfold Bot.bind at 1 in B.
  assert (C1 := call_vps_api_chats (u "get_portfolio_summary") None w).
  destruct (call_vps_api_shape (u "get_portfolio_summary") None w)
    as (portfolio & w1 & l1 & E1 & I1).
  rewrite E1 in B, C1. cbv beta iota in B. unfold Bot.bind at 1 in B.
  assert (C2 := call_vps_api_chats (u "get_positions") None w1).
  destruct (call_vps_api_shape (u "get_positions") None w1)
    as (positions & w2 & l2 & E2 & I2).
  rewrite E2 in B, C2. cbv beta iota in B. unfold Bot.bind at 1 in B.
  assert (C3 := call_vps_api_chats (u "get_decisions")
                  (Some [(u "limit", PInt 5)]) w2).
  destruct (call_vps_api_shape (u "get_decisions")
              (Some [(u "limit", PInt 5)]) w2)
    as (decisions & w3 & l3 & E3 & I3).
  rewrite E3 in B, C3. cbv beta iota in B.
  unfold Bot.effects in C1, C2, C3. cbn [snd Trace.chats] in C1, C2, C3.
  apply internal_quiet in I1, I2, I3.
  destruct I1 as (P1 & A1 & D1 & U1), I2 as (P2 & A2 & D2 & U2),
    I3 as (P3 & A3 & D3 & U3).
  assert (K1 : Trace.is_ack (request_body (u "get_portfolio_summary") None)
               = false) by (vm_compute; reflexivity).
  assert (K2 : Trace.is_ack (request_body (u "get_positions") None) = false)
    by (vm_compute; reflexivity).
  assert (K3 : Trace.is_ack (request_body (u "get_decisions")
                               (Some [(u "limit", PInt 5)])) = false)
    by (vm_compute; reflexivity).
  assert (Q : forall t4,
            Trace.posts t4 = [] -> Trace.delivered t4 = [] ->
            Trace.undelivered t4 = [] ->
            (List.length (Trace.chats t4) <= 1)%nat ->
            (forall prompt n, In (prompt, n) (Trace.chats t4) -> n = 400) ->
            t0 = (EPost (request_body (u "get_portfolio_summary") None) :: l1)
                 ++ (EPost (request_body (u "get_positions") None) :: l2)
                 ++ (EPost (request_body (u "get_decisions")
                              (Some [(u "limit", PInt 5)])) :: l3)
                 ++ t4 ->
            Trace.posts t0
            = [ request_body (u "get_portfolio_summary") None;
                request_body (u "get_positions") None;
                request_body (u "get_decisions") (Some [(u "limit", PInt 5)]) ]
            /\ Trace.acks t0 = []
            /\ Trace.delivered t0 = [] /\ Trace.undelivered t0 = []
            /\ (List.length (Trace.chats t0) <= 1)%nat
            /\ (forall prompt n, In (prompt, n) (Trace.chats t0) -> n = 400)).
  { intros t4 P4 D4 U4 L4 N4 ->.
    rewrite !posts_app, !acks_app, !delivered_app, !undelivered_app,
      !chats_app.
    cbn [Trace.posts Trace.acks Trace.delivered Trace.undelivered
           Trace.chats].
    rewrite K1, K2, K3, P1, P2, P3, A1, A2, A3, D1, D2, D3, U1, U2, U3,
      C1, C2, C3, P4, D4, U4, (no_posts_no_acks t4 P4).
    cbn [app]. repeat split; trivial. }
  unfold Bot.bind at 1 in B. unfold Bot.lift at 1 in B.
  destruct (query_context portfolio positions decisions) as [context | e];
    cbv beta iota zeta in B.
  - unfold Bot.bind at 1 in B.
    match type of B with
    | context [call_ollama ?p 400 w3] =>
      assert (C := call_ollama_chats p 400 w3);
      destruct (call_ollama_shape p 400 w3) as (r & w4 & t4 & E4 & I4);
      rewrite E4 in B, C
    end.
    unfold Bot.effects in C. cbn [snd] in C.
    apply internal_quiet in I4. destruct I4 as (P4 & _ & D4 & U4).
    cbv beta iota in B.
    apply (Q t4); trivial.
    + rewrite C. cbn. lia.
    + rewrite C. intros prompt n [H | []]. congruence.
    + destruct r as [[ | c text] | ];
        unfold Bot.bind, Bot.lift, Bot.ret in B; cbv beta iota zeta in B;
        try (destruct (Py.get portfolio (u "data") (PDict [])) as [data | e];
             cbv beta iota zeta in B);
        injection B as <- <- <-; cbn [app]; rewrite ?app_nil_r; reflexivity.
  - injection B as <- <- <-.
    apply (Q []); trivial; cbn; try lia; try contradiction.
Qed.

(** Answering a question sends exactly three requests to the engine, in
    this order: portfolio summary, positions, decisions (limit 5),
    whatever they answer; it calls the backend at most once, with a
    budget of 400 tokens; it sends nothing to the report channel and
    acknowledges nothing. *)
Lemma query_requests (question : str) (w : World) :
  let t := Bot.effects (handle_user_query question w) in
  Trace.posts t
  = [ request_body (u "get_portfolio_summary") None;
      request_body (u "get_positions") None;
      request_body (u "get_decisions") (Some [(u "limit", PInt 5)]) ]
  /\ Trace.acks t = []
  /\ Trace.delivered t = [] /\ Trace.undelivered t = []
  /\ (List.length (Trace.chats t) <= 1)%nat
  /\ (forall prompt n, In (prompt, n) (Trace.chats t) -> n = 400).
Proof. exact (query_run question w). Qed.

(** When the engine cannot be reached but the backend answers, the question
    is put to the backend with an empty context, and the first 1900
    characters of its answer are the reply. *)
Lemma engine_down_still_answers (question : str) (w : World) (answer : str) :
  (forall body w', fst (requests_post body w') = Raise ExternalError) ->
  (forall w',
     Bot.value (call_ollama
                  (u "You are a helpful trading assistant for the OpenClaw crypto trading system. "
                   ++ u "Answer the user's question based on the data below. Be concise (under 1800 chars)."
                   ++ nl ++ nl ++ (u "TRADING SYSTEM DATA:" ++ nl ++ nl)
                   ++ u "User question: " ++ question) 400 w')
     = Ok (Some answer)) ->
  answer <> [] ->
  Bot.value (handle_user_query question w) = Ok (slice_to 1900 answer).
Proof.
  intros Down Up N.
  assert (F : forall action extra (w' : World),
            exists w'' t, call_vps_api action extra w' = (Ok PNone, w'', t)).
  { intros action extra w'.
    unfold call_vps_api, Bot.try, Bot.bind, post, log_error, Bot.emit, Bot.ret.
    specialize (Down (request_body action extra) w').
    destruct (requests_post (request_body action extra) w') as [r w''].
    cbn [fst] in Down. subst r. eauto. }
  unfold handle_user_query. unfold Bot.bind at 1.
  destruct (F (u "get_portfolio_summary") None w) as (w1 & t1 & ->).
  unfold Bot.bind at 1.
  destruct (F (u "get_positions") None w1) as (w2 & t2 & ->).
  unfold Bot.bind at 1.
  destruct (F (u "get_decisions") (Some [(u "limit", PInt 5)]) w2)
    as (w3 & t3 & ->).
  unfold Bot.bind at 1. unfold Bot.lift at 1.
  change (query_context PNone PNone PNone)
    with (Ok (A := str) (u "TRADING SYSTEM DATA:" ++ nl ++ nl)).
  cbv beta iota zeta. unfold Bot.bind at 1.
  specialize (Up w3).
  match goal with
  | |- context [call_ollama ?p 400 w3] =>
    destruct (call_ollama p 400 w3) as [[r w4] t4]
  end.
  unfold Bot.value in *. cbn [fst] in Up. subst r.
  destruct answer as [ | c answer]; [congruence | ]. reflexivity.
Qed.

(** A message of the bot itself, a message outside the dashboard channel,
    and any message while no dashboard channel is known are ignored:
    nothing is fetched, nothing is asked of the backend, nothing is
    replied. *)
Lemma on_message_ignores (client_user : Z) (dash_channel : option channel)
  (m : message) (w : World) :
  author m = client_user
  \/ dash_channel = None
  \/ (exists dash, dash_channel = Some dash
                   /\ message_channel m <> channel_id dash) ->
  on_message client_user dash_channel m w = (Ok None, w, []).
Proof.
  unfold on_message. intros [A | [-> | (dash & -> & N)]].
  - apply Z.eqb_eq in A. now rewrite A.
  - destruct (author m =? client_user); reflexivity.
  - apply Z.eqb_neq in N. rewrite N.
    destruct (author m =? client_user); reflexivity.
Qed.

End ResponderEffects.

(** ** Channel resolution *)

Lemma find_append {A} (p : A -> bool) (a b : list A) :
  find p (a ++ b)
  = match find p a with Some x => Some x | None => find p b end.
Proof.
  induction a as [ | x a IH]; cbn; trivial. now destruct (p x).
Qed.

Lemma fold_left_pick (name : str) (l : list channel) :
  forall current,
    fold_left (pick name) l current
    = match find (fun ch => str_eqb (channel_name ch) name) (rev l) with
      | Some ch => Some ch
      | None => current
      end.
Proof.
  induction l as [ | ch l IH]; intros current; cbn [fold_left rev];
    [reflexivity | ].
  rewrite IH, find_append.
  destruct (find (fun ch0 => str_eqb (channel_name ch0) name) (rev l));
    trivial.
  unfold pick. cbn [find]. now destruct (str_eqb (channel_name ch) name).
Qed.

Lemma resolve_guild (report_name dash_name : str) (guild : list channel) :
  forall st,
    fold_left
      (fun st ch => (pick report_name (fst st) ch, pick dash_name (snd st) ch))
      guild st
    = (fold_left (pick report_name) guild (fst st),
       fold_left (pick dash_name) guild (snd st)).
Proof.
  induction guild as [ | ch guild IH]; intros [r d]; cbn [fold_left fst snd];
    [reflexivity | ].
  now rewrite IH.
Qed.

Lemma resolve_pair (report_name dash_name : str)
  (guilds : list (list channel)) :
  forall current,
    resolve_channels report_name dash_name guilds current
    = (match last_named report_name guilds with
       | Some ch => Some ch
       | None => fst current
       end,
       match last_named dash_name guilds with
       | Some ch => Some ch
       | None => snd current
       end).
Proof.
  unfold resolve_channels, last_named.
  assert (G : forall current,
            fold_left
              (fun st guild =>
                 fold_left
                   (fun st ch => (pick report_name (fst st) ch,
                                  pick dash_name (snd st) ch))
                   guild st)
              guilds current
            = (fold_left (pick report_name) (List.concat guilds) (fst current),
               fold_left (pick dash_name) (List.concat guilds) (snd current))).
  { induction guilds as [ | guild guilds IH]; intros [r d];
      cbn [fold_left List.concat fst snd]; [reflexivity | ].
    rewrite resolve_guild, IH, !fold_left_app. reflexivity. }
  intros current. now rewrite G, !fold_left_pick.
Qed.

(** After the loops of [on_ready] each handle is the last channel of its
    name, in the order the guilds and their channels are visited; a handle
    whose name no channel bears keeps the value it had. *)
Lemma resolve_channels_last (report_name dash_name : str)
  (guilds : list (list channel))
  (current : option channel * option channel) :
  resolve_channels report_name dash_name guilds current
  = (match last_named report_name guilds with
     | Some ch => Some ch
     | None => fst current
     end,
     match last_named dash_name guilds with
     | Some ch => Some ch
     | None => snd current
     end).
Proof. exact (resolve_pair report_name dash_name guilds current). Qed.

(** A handle is found exactly when some channel of some guild bears its
    name. *)
Lemma report_channel_found_iff (report_name dash_name : str)
  (guilds : list (list channel)) :
  (exists ch, fst (resolve_channels report_name dash_name guilds (None, None))
              = Some ch)
  <-> exists guild ch,
        In guild guilds /\ In ch guild /\ channel_name ch = report_name.
Proof.
  rewrite resolve_pair. cbn [fst]. unfold last_named. split.
  - intros [ch H].
    destruct (find _ (rev (List.concat guilds))) as [ch' | ] eqn:F;
      [ | discriminate H].
    apply find_some in F. destruct F as [I E].
    apply in_rev, in_concat in I. destruct I as (guild & G & C).
    exists guild, ch'. repeat split; trivial. now apply str_eqb_eq.
  - intros (guild & ch & G & C & E).
    destruct (find (fun ch0 => str_eqb (channel_name ch0) report_name)
                (rev (List.concat guilds))) as [ch' | ] eqn:F;
      [now exists ch' | ].
    exfalso.
    assert (I : In ch (rev (List.concat guilds))).
    { apply in_rev. rewrite rev_involutive. apply in_concat.
      exists guild. now split. }
    apply (find_none _ _ F) in I. cbn beta in I.
    rewrite E, str_eqb_refl in I. discriminate I.
Qed.

(** ** What the handlers and the responder do, on examples *)

(** The sixth item of the positions and the fourth of the decisions are
    not even dicts; the context is built from the items before them. *)
Lemma context_reads_first_items_witness :
  query_context (rt := sample_runtime) PNone
    (PDict [ (u "data", PList six_positions) ])
    (PDict [ (u "data", PList four_decisions) ])
  = query_context (rt := sample_runtime) PNone
      (PDict (Py.dict_set [ (u "data", PList six_positions) ] (u "data")
                (PList (firstn 5 six_positions))))
      (PDict (Py.dict_set [ (u "data", PList four_decisions) ] (u "data")
                (PList (firstn 3 four_decisions))))
  /\ query_context (rt := sample_runtime) PNone
       (PDict [ (u "data", PList six_positions) ])
       (PDict [ (u "data", PList four_decisions) ])
     = Ok (u "TRADING SYSTEM DATA:" ++ nl ++ nl
           ++ u "Open positions:" ++ nl
           ++ u "  BTC: entry $60000.00, now $65000.00 (+2.5%)" ++ nl
           ++ u "  ETH: entry $3000.00, now $3200.00 (+2.5%)" ++ nl
           ++ u "  SOL: entry $140.00, now $150.00 (+2.5%)" ++ nl
           ++ u "  ADA: entry $1.00, now $2.00 (+2.5%)" ++ nl
           ++ u "  XRP: entry $2.00, now $3.00 (+2.5%)" ++ nl ++ nl
           ++ u "Recent decisions:" ++ nl
           ++ u "  BTC: BUY conf:80 — trend" ++ nl
           ++ u "  ETH: SELL conf:70 — trend" ++ nl
           ++ u "  SOL: HOLD conf:60 — trend" ++ nl ++ nl).
Proof.
  split.
  - apply (context_reads_first_items (rt := sample_runtime) PNone
             [ (u "data", PList six_positions) ]
             [ (u "data", PList four_decisions) ]
             six_positions four_decisions);
      vm_compute; reflexivity.
  - vm_compute. reflexivity.
Defined.

Lemma engine_down_still_answers_witness :
  Bot.value (handle_user_query (rt := sample_runtime) (sv := backend_only)
               (u "How is my portfolio?") tt)
  = Ok (slice_to 1900 (u "All quiet.")).
Proof.
  apply (engine_down_still_answers (rt := sample_runtime)
           (sv := backend_only) (u "How is my portfolio?") tt
           (u "All quiet.")).
  - intros body w'. reflexivity.
  - intros w'. vm_compute. reflexivity.
  - vm_compute. discriminate.
Defined.

Lemma on_message_ignores_witness :
  on_message (rt := sample_runtime) 7 (Some {| channel_name := u "dashboard";
                                               channel_id := 42 |})
    {| author := 7; message_channel := 42; content := u "hello" |} all_down
  = (Ok None, all_down, []).
Proof.
  apply (on_message_ignores (rt := sample_runtime) 7
           (Some {| channel_name := u "dashboard"; channel_id := 42 |})
           {| author := 7; message_channel := 42; content := u "hello" |}
           all_down).
  left. reflexivity.
Defined.

Section Replies.
Context {rt : PyRuntime} {World : Type} {sv : Services World}.

(** A reply is only ever sent to a message of someone else in the dashboard
    channel, and it is what [handle_user_query] returns for its content;
    handling a message sends nothing to the report channel and
    acknowledges nothing, and sends either no request to the engine or the
    three requests of a query. *)
Lemma on_message_replies (client_user : Z) (dash_channel : option channel)
  (m : message) (w : World) :
  let out := on_message client_user dash_channel m w in
  (forall answer,
     Bot.value out = Ok (Some answer) ->
     author m <> client_user
     /\ (exists dash, dash_channel = Some dash
                      /\ message_channel m = channel_id dash)
     /\ Bot.value (handle_user_query (content m) w) = Ok answer)
  /\ Trace.delivered (Bot.effects out) = []
  /\ Trace.undelivered (Bot.effects out) = []
  /\ Trace.acks (Bot.effects out) = []
  /\ (Trace.posts (Bot.effects out) = []
      \/ Trace.posts (Bot.effects out)
         = [ request_body (u "get_portfolio_summary") None;
             request_body (u "get_positions") None;
             request_body (u "get_decisions") (Some [(u "limit", PInt 5)]) ]).
Proof.
  cbv zeta. unfold on_message.
  assert (Q : forall (r : result (option str)) (w' : World),
            (forall answer, r = Ok (Some answer) -> False) ->
            (forall answer,
               Bot.value (r, w', @nil effect) = Ok (Some answer) ->
               author m <> client_user
               /\ (exists dash, dash_channel = Some dash
                                /\ message_channel m = channel_id dash)
               /\ Bot.value (handle_user_query (content m) w) = Ok answer)
            /\ Trace.delivered (Bot.effects (r, w', @nil effect)) = []
            /\ Trace.undelivered (Bot.effects (r, w', @nil effect)) = []
            /\ Trace.acks (Bot.effects (r, w', @nil effect)) = []
            /\ (Trace.posts (Bot.effects (r, w', @nil effect)) = []
                \/ Trace.posts (Bot.effects (r, w', @nil effect))
                   = [ request_body (u "get_portfolio_summary") None;
                       request_body (u "get_positions") None;
                       request_body (u "get_decisions")
                         (Some [(u "limit", PInt 5)]) ])).
  { intros r w' N.
    split; [intros answer H; destruct (N answer H) | ].
    repeat split. now left. }
  destruct (author m =? client_user) eqn:A;
    [ apply Q; unfold Bot.ret; discriminate | ].
  destruct dash_channel as [dash | ];
    [ | apply Q; discriminate ].
  destruct (message_channel m =? channel_id dash) eqn:C;
    [ | apply Q; discriminate ].
  apply Z.eqb_neq in A. apply Z.eqb_eq in C.
  destruct (query_run (content m) w) as (P & K & D & U & _).
  unfold Bot.bind, Bot.ret.
  destruct (handle_user_query (content m) w) as [[[answer | e] w1] t];
    unfold Bot.value, Bot.effects in *; cbn [fst snd] in *;
    rewrite ?app_nil_r.
  - split; [ | repeat split; trivial; now right].
    intros a Ha. apply Ok_inj in Ha. injection Ha as <-.
    repeat split; trivial. now exists dash.
  - split; [ | repeat split; trivial; now right].
    intros a Ha. discriminate Ha.
Qed.

End Replies.

(** ** Metadata without the fields a template reads *)

(** One template on empty metadata: the event type is looked up, the fields
    fall back to their placeholders, and the literal parts are joined. *)
Ltac placeholder_case d M :=
  let E := fresh "E" in
  intros E; unfold format_event_fallback; rewrite !get_dict;
  cbn [rbind]; rewrite M, E; cbn [table_get rbind];
  unfold templates; cbn [assoc]; literal_eqb; cbv beta iota;
  unfold field_2f; rewrite ?field_dict; cbn [rbind Py.get];
  repeat (apply f_equal; try reflexivity);
  try (vm_compute; reflexivity).

(** With metadata that is missing, empty or undecodable every template
    still renders: each field it reads is replaced by its placeholder, a
    question mark, an empty text or a zero. *)
Lemma empty_metadata_placeholders {rt : PyRuntime} (d : dict) :
  let et := lookup d "event_type" (PStr (u "UNKNOWN")) in
  let sym := Py.to_str (lookup d "symbol" (PStr [])) in
  fallback_meta (lookup d "metadata" PNone) = PDict [] ->
  (et = PStr (u "BUY") ->
   format_event_fallback (PDict d)
   = Ok (u "🟢 **BUY** " ++ sym ++ u " @ $? | Conf: ? | "))
  /\ (et = PStr (u "SELL") ->
      format_event_fallback (PDict d)
      = Ok (u "🔴 **SELL** " ++ sym ++ u " @ $? | P&L: $? (?%)"))
  /\ (et = PStr (u "DCA") ->
      format_event_fallback (PDict d)
      = Ok (u "🔵 **DCA** " ++ sym ++ u " @ $? | New avg: $?"))
  /\ (et = PStr (u "PARTIAL_EXIT") ->
      format_event_fallback (PDict d)
      = Ok (u "💰 **PARTIAL EXIT** " ++ sym ++ u " % @ $? | P&L: $?"))
  /\ (et = PStr (u "CIRCUIT_BREAKER") ->
      format_event_fallback (PDict d)
      = Ok (u "⚠️ **CIRCUIT BREAKER** | ? losses | Pausing ?h"))
  /\ (et = PStr (u "HOURLY_SUMMARY") ->
      format_event_fallback (PDict d)
      = Ok (u "📊 **Hourly** | 0 positions | P&L: $0.00 unrealized, $0.00 realized"))
  /\ (et = PStr (u "ENGINE_START") ->
      format_event_fallback (PDict d)
      = Ok (u "🚀 **Engine Started** | ? symbols | $? capital | Paper: ?"))
  /\ (et = PStr (u "ENGINE_STOP") ->
      format_event_fallback (PDict d)
      = Ok (u "🛑 **Engine Stopped** | ? cycles completed")).
Proof.
  cbv zeta. intros M.
  repeat split; placeholder_case d M.
Qed.

Lemma empty_metadata_placeholders_witness :
  format_event_fallback (rt := sample_runtime)
    (PDict [ (u "event_type", PStr (u "HOURLY_SUMMARY")) ])
  = Ok (u "📊 **Hourly** | 0 positions | P&L: $0.00 unrealized, $0.00 realized").
Proof.
  destruct (empty_metadata_placeholders (rt := sample_runtime)
              [ (u "event_type", PStr (u "HOURLY_SUMMARY")) ])
    as (_ & _ & _ & _ & _ & H & _).
  - vm_compute. reflexivity.
  - apply H. vm_compute. reflexivity.
Defined.
